(** * Authentication and session identity of the contacts backend

    A shallow embedding of [src/services/auth.py], [src/api/auth.py] and
    [src/repository/users.py]: token issuance and decoding, cache-backed
    identity resolution, login and refresh-token rotation.

    Conventions.
    - An instant ([datetime]) is an integer number of microseconds since the
      epoch; a duration given in seconds is an integer number of seconds.
    - A read of the wall clock is an explicit argument of the function that
      performs it, so nothing assumes that the clock stands still between
      two token issues or two requests.
    - The database session, the Redis server and the log of executed
      statements form the [World]; request handlers are computations in a
      state-and-exception monad over it. *)

From Stdlib Require Import ZArith List Bool Lia.
From stdpp Require Import base option list gmap strings.

Local Open Scope string_scope.
Local Open Scope Z_scope.

(** ** Results of fallible code *)

Inductive result (E A : Type) : Type :=
| Ok (a : A)
| Err (e : E).
Arguments Ok {E A} a.
Arguments Err {E A} e.

Definition is_ok {E A} (r : result E A) : bool :=
  match r with Ok _ => true | Err _ => false end.

(** ** Python dictionaries with string keys

    A [dict] keeps its keys in insertion order, and that order is the order
    in which [json.dumps] writes them into a token, so the model is an
    association list. [dict_set] is [d[k] = v]: an existing key keeps its
    position and takes the new value, a new key goes last. *)

Inductive jvalue : Type :=
| JInt (z : Z)
| JStr (s : string).

#[global] Instance jvalue_eq_dec : EqDecision jvalue.
Proof. solve_decision. Defined.

Definition dict : Type := list (string * jvalue).

Fixpoint dict_get (d : dict) (k : string) : option jvalue :=
  match d with
  | [] => None
  | (k', v) :: d' => if String.eqb k' k then Some v else dict_get d' k
  end.

Fixpoint dict_set (d : dict) (k : string) (v : jvalue) : dict :=
  match d with
  | [] => [(k, v)]
  | (k', v') :: d' =>
      if String.eqb k' k then (k', v) :: d' else (k', v') :: dict_set d' k v
  end.

(** [d.update(kvs)] *)
Definition dict_update (d kvs : dict) : dict :=
  fold_left (fun acc kv => dict_set acc (fst kv) (snd kv)) kvs d.

(** ** The JOSE library ([jose.jwt])

    The library is not part of the repository; it is modelled symbolically.
    A token string is either the compact serialisation of a payload signed
    with a key under an algorithm, or any other string. The same secret
    signs and verifies (an HMAC algorithm), so signing is deterministic:
    equal payload, key and algorithm give the same string, and different
    ones give different strings. Claim values are the JSON integers and
    strings, the only values this program puts into a token. *)

Inductive token : Type :=
| Raw (s : string)
| JWS (key alg : string) (payload : dict).

#[global] Instance token_eq_dec : EqDecision token.
Proof. solve_decision. Defined.

(** Truth value of a token used as a Python condition: only the empty
    string is false. *)
Definition token_truthy (t : token) : bool :=
  match t with
  | Raw s => negb (String.eqb s EmptyString)
  | JWS _ _ _ => true
  end.

Inductive JWTError : Type :=
| JWSError              (* malformed string, algorithm not allowed, bad signature *)
| ExpiredSignatureError
| JWTClaimsError.

Definition MICROSECONDS : Z := 1000000.

(** [calendar.timegm(t.utctimetuple())]: whole seconds, the microseconds are
    dropped. *)
Definition timegm (t : Z) : Z := t / MICROSECONDS.

(** [timedelta(seconds=s)] as a number of microseconds. *)
Definition timedelta_seconds (s : Z) : Z := s * MICROSECONDS.
Definition timedelta_days (d : Z) : Z := d * 86400 * MICROSECONDS.

(** [jwt.encode(claims, key, algorithm)]. The caller has already replaced
    the datetimes of the time claims by [timegm] of them, as the library
    does on entry. *)
Definition jwt_encode (claims : dict) (key alg : string) : token :=
  JWS key alg claims.

(** The checks of the registered claims that [jwt.decode] makes with its
    default options, no audience, issuer, subject or access token given, in
    the library's order. [now] is the clock in whole seconds. The time
    claims [iat], [nbf] and [exp] are read as the integers that the
    application writes; a string there is refused, also a string of digits,
    which the library would convert with [int]. *)
Definition validate_iat (claims : dict) : result JWTError unit :=
  match dict_get claims "iat" with
  | None | Some (JInt _) => Ok tt
  | Some (JStr _) => Err JWTClaimsError
  end.

Definition validate_nbf (claims : dict) (now : Z) : result JWTError unit :=
  match dict_get claims "nbf" with
  | None => Ok tt
  | Some (JInt nbf) => if now <? nbf then Err JWTClaimsError else Ok tt
  | Some (JStr _) => Err JWTClaimsError
  end.

Definition validate_exp (claims : dict) (now : Z) : result JWTError unit :=
  match dict_get claims "exp" with
  | None => Ok tt
  | Some (JInt exp) => if exp <? now then Err ExpiredSignatureError else Ok tt
  | Some (JStr _) => Err JWTClaimsError
  end.

(** No audience is passed, so a token that names one is refused. *)
Definition validate_aud (claims : dict) : result JWTError unit :=
  match dict_get claims "aud" with
  | None => Ok tt
  | Some _ => Err JWTClaimsError
  end.

Definition validate_sub (claims : dict) : result JWTError unit :=
  match dict_get claims "sub" with
  | None | Some (JStr _) => Ok tt
  | Some (JInt _) => Err JWTClaimsError
  end.

Definition validate_jti (claims : dict) : result JWTError unit :=
  match dict_get claims "jti" with
  | None | Some (JStr _) => Ok tt
  | Some (JInt _) => Err JWTClaimsError
  end.

(** No access token is passed, so an [at_hash] claim cannot be compared. *)
Definition validate_at_hash (claims : dict) : result JWTError unit :=
  match dict_get claims "at_hash" with
  | None => Ok tt
  | Some _ => Err JWTClaimsError
  end.

Definition and_then {E} (r : result E unit) (k : result E unit) : result E unit :=
  match r with Ok _ => k | Err e => Err e end.

Definition validate_claims (claims : dict) (now : Z) : result JWTError unit :=
  and_then (validate_iat claims)
  (and_then (validate_nbf claims now)
  (and_then (validate_exp claims now)
  (and_then (validate_aud claims)
  (and_then (validate_sub claims)
  (and_then (validate_jti claims)
            (validate_at_hash claims)))))).

(** [jwt.decode(token, key, algorithms=algs)] at the instant [now]. *)
Definition jwt_decode (t : token) (key : string) (algs : list string) (now : Z)
  : result JWTError dict :=
  match t with
  | Raw _ => Err JWSError
  | JWS k alg payload =>
      if negb (bool_decide (alg ∈ algs)) then Err JWSError
      else if negb (String.eqb k key) then Err JWSError
      else match validate_claims payload (timegm now) with
           | Ok _ => Ok payload
           | Err e => Err e
           end
  end.

(** A token is expired at [now] when its [exp] claim lies in an earlier
    second. *)
Definition expired (claims : dict) (now : Z) : bool :=
  match dict_get claims "exp" with
  | Some (JInt exp) => exp <? timegm now
  | _ => false
  end.

(** ** Data model ([src/database/models.py], [src/schemas.py])

    An attribute of an ORM object that was never set or loaded reads as
    [None]; the relationship attributes are [None] until they are loaded. *)

Inductive UserRole : Type := USER | ADMIN.

#[global] Instance UserRole_eq_dec : EqDecision UserRole.
Proof. solve_decision. Defined.

Module Contact.
Record t : Type := mk {
  id : Z;
  name : string;
  surname : string;
  email : string;
  phone_number : string;
  birthday : Z;
  user_id : option Z;
  address_id : option Z;
  is_active : bool;
  created_at : option Z;
  updated_at : option Z
}.
End Contact.

Module Group.
Record t : Type := mk {
  id : Z;
  name : string;
  user_id : option Z
}.
End Group.

Module User.
Record t : Type := mk {
  id : Z;
  username : string;
  email : string;
  hashed_password : option string;
  refresh_token : option token;
  created_at : option Z;
  avatar : option string;
  confirmed : option bool;
  role : UserRole;
  contacts : option (list Contact.t);
  groups : option (list Group.t)
}.

(** [user.refresh_token = tok] *)
Definition set_refresh_token (u : t) (tok : option token) : t :=
  mk (id u) (username u) (email u) (hashed_password u) tok (created_at u)
     (avatar u) (confirmed u) (role u) (contacts u) (groups u).
End User.

(** The schema [UserBase]. The cache holds its JSON dump; the dump and
    [json.loads] are taken to be inverse to each other, so a cache entry is
    modelled as the record itself. *)
Module UserBase.
Record t : Type := mk {
  id : Z;
  username : string;
  email : string;
  avatar : option string;
  role : UserRole
}.

(** [UserBase.model_validate(user)] *)
Definition model_validate (u : User.t) : t :=
  mk (User.id u) (User.username u) (User.email u) (User.avatar u) (User.role u).
End UserBase.

(** The schema [Token], the body of a login or refresh response. *)
Module Token.
Record t : Type := mk {
  access_token : token;
  refresh_token : token;
  token_type : string
}.
End Token.

(** [OAuth2PasswordRequestForm] *)
Module Form.
Record t : Type := mk {
  username : string;
  password : string
}.
End Form.

(** ** Messages ([src/conf/messages.py]) *)

Definition UNVERIFIED_CREDENTIALS : string := "Could not verify credentials".
Definition INVALID_CREDENTIALS : string := "Wrong email or password".
Definition INVALID_REFRESH_TOKEN : string := "Invalid or expired refresh token".
Definition USER_NOT_CONFIRMED : string := "Email address is not confirmed".
Definition UNEXISTING_TOKEN : string := "Unexisting token for mail confirmation".
Definition INSUFFICIENT_PERMISSIONS : string := "Insufficient access permissions".

Inductive Exception : Type :=
| HTTPException (status_code : Z) (detail : string)
| MultipleResultsFound.

Definition HTTP_401_UNAUTHORIZED : Z := 401.
Definition HTTP_403_FORBIDDEN : Z := 403.
Definition HTTP_422_UNPROCESSABLE_ENTITY : Z := 422.

(** ** The world: database, cache, executed statements

    A statement on [users] is named by the arguments of the repository call
    that builds it. *)

Inductive Statement : Type :=
| SelectUser (username : string) (refresh_token : option token)
| SelectUserById (id : Z)
| SelectContact (user_id : Z)
| SelectGroup (user_id : Z)
| UpdateUser (id : Z) (refresh_token : option token).

(** A Redis entry is a value with the instant at which it expires, if one
    was set. *)
Record World : Type := mkWorld {
  users : list User.t;
  contact : list Contact.t;
  group : list Group.t;
  redis : gmap string (UserBase.t * option Z);
  executed : list Statement
}.

Definition M (A : Type) : Type := World -> result Exception A * World.

Definition ret {A} (a : A) : M A := fun w => (Ok a, w).

Definition raise {A} (e : Exception) : M A := fun w => (Err e, w).

Definition bind {A B} (m : M A) (k : A -> M B) : M B :=
  fun w =>
    match m w with
    | (Ok a, w') => k a w'
    | (Err e, w') => (Err e, w')
    end.

Notation "'let*' x ':=' m 'in' k" := (bind m (fun x => k))
  (at level 10, x name, m at level 100, k at level 200).
Notation "m ';;' k" := (bind m (fun _ => k))
  (at level 100, k at level 200, right associativity).

(** *** The database session *)

Definition db_log (s : Statement) (w : World) : World :=
  mkWorld (users w) (contact w) (group w) (redis w) (executed w ++ [s]).

Definition set_users (us : list User.t) (w : World) : World :=
  mkWorld us (contact w) (group w) (redis w) (executed w).

Definition set_redis (r : gmap string (UserBase.t * option Z)) (w : World) : World :=
  mkWorld (users w) (contact w) (group w) r (executed w).

(** [db.execute(select(User)...)]: the rows that satisfy the statement. *)
Definition execute_select_user (s : Statement) (where_ : User.t -> bool)
  : M (list User.t) :=
  fun w => (Ok (filter (fun u => where_ u = true) (users w)), db_log s w).

Definition execute_select_contact (uid : Z) : M (list Contact.t) :=
  fun w => (Ok (filter (fun c => Contact.user_id c = Some uid) (contact w)),
            db_log (SelectContact uid) w).

Definition execute_select_group (uid : Z) : M (list Group.t) :=
  fun w => (Ok (filter (fun g => Group.user_id g = Some uid) (group w)),
            db_log (SelectGroup uid) w).

(** [result.scalar_one_or_none()] *)
Definition scalar_one_or_none {A} (rows : list A) : M (option A) :=
  match rows with
  | [] => ret None
  | [row] => ret (Some row)
  | _ => raise MultipleResultsFound
  end.

(** [UPDATE users SET refresh_token = tok WHERE id = uid] *)
Definition store_refresh_token (uid : Z) (tok : option token)
    (us : list User.t) : list User.t :=
  (fun row => if bool_decide (User.id row = uid)
              then User.set_refresh_token row tok else row) <$> us.

(** [user.refresh_token = tok; await db.commit()]: the pending change is
    written to the row with the object's primary key. *)
Definition commit_refresh_token (u : User.t) (tok : option token) : M unit :=
  fun w =>
    (Ok tt,
     db_log (UpdateUser (User.id u) tok)
       (set_users (store_refresh_token (User.id u) tok (users w)) w)).

(** [await db.refresh(user)]: the object is read again; nothing uses it
    afterwards. *)
Definition db_refresh (u : User.t) : M unit :=
  fun w => (Ok tt, db_log (SelectUserById (User.id u)) w).

(** *** The Redis client *)

Definition live (entry : UserBase.t * option Z) (now : Z) : bool :=
  match snd entry with
  | None => true
  | Some expires => now <? expires
  end.

Definition redis_lookup (r : gmap string (UserBase.t * option Z)) (key : string)
    (now : Z) : option UserBase.t :=
  match r !! key with
  | Some entry => if live entry now then Some (fst entry) else None
  | None => None
  end.

Definition redis_get (key : string) (now : Z) : M (option UserBase.t) :=
  fun w => (Ok (redis_lookup (redis w) key now), w).

Definition redis_set (key : string) (value : UserBase.t) : M unit :=
  fun w => (Ok tt, set_redis (<[key := (value, None)]> (redis w)) w).

(** [EXPIRE key seconds]: a timeout that is not positive deletes the key. *)
Definition redis_expire (key : string) (seconds : Z) (now : Z) : M unit :=
  fun w =>
    match redis_lookup (redis w) key now with
    | Some value =>
        if seconds <=? 0
        then (Ok tt, set_redis (delete key (redis w)) w)
        else (Ok tt,
              set_redis
                (<[key := (value, Some (now + timedelta_seconds seconds))]> (redis w)) w)
    | None => (Ok tt, w)
    end.

(** ** Configuration ([src/conf/config.py])

    The settings module is not among the sources; its values are taken as a
    parameter. Durations are whole seconds. *)

Record Config : Type := mkConfig {
  JWT_SECRET : string;
  JWT_ALGORITHM : string;
  JWT_EXPIRATION_SECONDS : Z;
  JWT_REFRESH_EXPIRATION_SECONDS : Z;
  REDIS_EXPIRATION_TIME : Z
}.

Section Auth.

Variable config : Config.

(** [CryptContext(schemes=["bcrypt"]).verify(plain, hashed)]: the hashing
    library, taken as a parameter. *)
Variable pwd_context_verify : string -> option string -> bool.

(** *** [src/repository/users.py] *)

Definition where_username (username : string) (refresh_token : option token)
  : User.t -> bool :=
  fun u =>
    String.eqb (User.username u) username
    && match refresh_token with
       | Some tok =>
           if token_truthy tok
           then bool_decide (User.refresh_token u = Some tok)
           else true
       | None => true
       end.

Definition UserRepository_get_user_by_username
    (username : string) (refresh_token : option token) : M (option User.t) :=
  let* rows := execute_select_user (SelectUser username refresh_token)
                 (where_username username refresh_token) in
  scalar_one_or_none rows.

(** Modelled from the spec: [UserService.get_user_by_username] of
    [src/services/users.py], which is not among the sources. The persistent
    store is consumed through [find_by_username]; the service forwards to
    the repository, and the token filter is absent unless the caller gives
    one. *)
Definition UserService_get_user_by_username
    (username : string) (refresh_token : option token) : M (option User.t) :=
  UserRepository_get_user_by_username username refresh_token.

(** *** [src/services/auth.py] *)

Definition verify_password (plain_password : string)
    (hashed_password : option string) : bool :=
  pwd_context_verify plain_password hashed_password.

(** [create_token(data, token_type, expires_delta)], the clock read at
    [now]. [jwt.encode] writes the two datetimes as whole seconds. *)
Definition create_token (data : dict) (token_type : string)
    (expires_delta : Z) (now : Z) : token :=
  let to_encode := data in
  let expire := now + timedelta_seconds expires_delta in
  let to_encode :=
    dict_update to_encode
      [("exp", JInt (timegm expire)); ("iat", JInt (timegm now));
       ("token_type", JStr token_type)] in
  jwt_encode to_encode (JWT_SECRET config) (JWT_ALGORITHM config).

(** [if expires_delta:] is false for [None] and for zero. *)
Definition given (expires_delta : option Z) : option Z :=
  match expires_delta with
  | Some d => if d =? 0 then None else Some d
  | None => None
  end.

Definition create_access_token (data : dict) (expires_delta : option Z)
    (now : Z) : token :=
  match given expires_delta with
  | Some d => create_token data "access" d now
  | None => create_token data "access" (JWT_EXPIRATION_SECONDS config) now
  end.

Definition create_refresh_token (data : dict) (expires_delta : option Z)
    (now : Z) : token :=
  match given expires_delta with
  | Some d => create_token data "refresh" d now
  | None => create_token data "refresh" (JWT_REFRESH_EXPIRATION_SECONDS config) now
  end.

Definition credentials_exception : Exception :=
  HTTPException HTTP_401_UNAUTHORIZED UNVERIFIED_CREDENTIALS.

(** [payload.get("sub")] of a decoded payload: [jwt.decode] has checked
    that the subject, when present, is a string. *)
Definition payload_sub (payload : dict) : option string :=
  match dict_get payload "sub" with
  | Some (JStr s) => Some s
  | _ => None
  end.

Definition payload_token_type (payload : dict) : option jvalue :=
  dict_get payload "token_type".

(** The [User] built from the cached dictionary, with [contacts] and
    [groups] given as keywords; no other attribute is set. *)
Definition User_of_cache (user : UserBase.t) (contacts : list Contact.t)
    (groups : list Group.t) : User.t :=
  User.mk (UserBase.id user) (UserBase.username user) (UserBase.email user)
    None None None (UserBase.avatar user) None (UserBase.role user)
    (Some contacts) (Some groups).

(** [get_current_user(token, db)]. [now] is the clock at [jwt.decode],
    [rnow] the clock of the Redis server during the request. *)
Definition get_current_user (token : token) (now rnow : Z) : M User.t :=
  match jwt_decode token (JWT_SECRET config) [JWT_ALGORITHM config] now with
  | Err _ => raise credentials_exception
  | Ok payload =>
      let username := payload_sub payload in
      let token_type := payload_token_type payload in
      match username with
      | None => raise credentials_exception
      | Some username =>
          if negb (bool_decide (token_type = Some (JStr "access")))
          then raise credentials_exception
          else
            let* retrieved_user_json := redis_get username rnow in
            match retrieved_user_json with
            | Some user =>
                let* contacts := execute_select_contact (UserBase.id user) in
                let* groups := execute_select_group (UserBase.id user) in
                ret (User_of_cache user contacts groups)
            | None =>
                let* user := UserService_get_user_by_username username None in
                match user with
                | None => raise credentials_exception
                | Some user =>
                    redis_set username (UserBase.model_validate user) ;;
                    redis_expire username (REDIS_EXPIRATION_TIME config) rnow ;;
                    ret user
                end
            end
      end
  end.

(** [verify_refresh_token(refresh_token, db)] *)
Definition verify_refresh_token (refresh_token : token) (now : Z)
  : M (option User.t) :=
  match jwt_decode refresh_token (JWT_SECRET config) [JWT_ALGORITHM config] now with
  | Err _ => raise credentials_exception
  | Ok payload =>
      let username := payload_sub payload in
      let token_type := payload_token_type payload in
      match username with
      | None => raise credentials_exception
      | Some username =>
          if negb (bool_decide (token_type = Some (JStr "refresh")))
          then raise credentials_exception
          else UserService_get_user_by_username username (Some refresh_token)
      end
  end.

Definition SEVEN_DAYS : Z := timedelta_days 7.

(** [create_email_token(data)]. The clock is read twice: [now_exp] for the
    expiry, then [now_iat] for the issue time. *)
Definition create_email_token (data : dict) (now_exp now_iat : Z) : token :=
  let to_encode := data in
  let expire := now_exp + SEVEN_DAYS in
  let to_encode :=
    dict_update to_encode
      [("iat", JInt (timegm now_iat)); ("exp", JInt (timegm expire))] in
  jwt_encode to_encode (JWT_SECRET config) (JWT_ALGORITHM config).

(** [get_email_from_token(token)] *)
Definition get_email_from_token (token : token) (now : Z)
  : result Exception (option string) :=
  match jwt_decode token (JWT_SECRET config) [JWT_ALGORITHM config] now with
  | Ok payload =>
      let email := payload_sub payload in
      Ok email
  | Err _ => Err (HTTPException HTTP_422_UNPROCESSABLE_ENTITY UNEXISTING_TOKEN)
  end.

(** [get_current_admin_user(current_user)] *)
Definition get_current_admin_user (current_user : User.t)
  : result Exception User.t :=
  if negb (bool_decide (User.role current_user = ADMIN))
  then Err (HTTPException HTTP_403_FORBIDDEN INSUFFICIENT_PERMISSIONS)
  else Ok current_user.

(** *** [src/api/auth.py] *)

Definition truthy_bool (b : option bool) : bool :=
  match b with Some true => true | _ => false end.

(** [login_user(form_data, db)]; the clock is read at [now_a] for the
    access token and at [now_r] for the refresh token. *)
Definition login_user (form_data : Form.t) (now_a now_r : Z) : M Token.t :=
  let* user := UserService_get_user_by_username (Form.username form_data) None in
  match user with
  | None =>
      raise (HTTPException HTTP_401_UNAUTHORIZED INVALID_CREDENTIALS)
  | Some user =>
      if negb (verify_password (Form.password form_data) (User.hashed_password user))
      then raise (HTTPException HTTP_401_UNAUTHORIZED INVALID_CREDENTIALS)
      else if negb (truthy_bool (User.confirmed user))
      then raise (HTTPException HTTP_401_UNAUTHORIZED USER_NOT_CONFIRMED)
      else
        let access_token :=
          create_access_token [("sub", JStr (User.username user))] None now_a in
        let refresh_token :=
          create_refresh_token [("sub", JStr (User.username user))] None now_r in
        commit_refresh_token user (Some refresh_token) ;;
        db_refresh user ;;
        ret (Token.mk access_token refresh_token "bearer")
  end.

(** [new_token(request, db)]; [now] is the clock at the decoding of the
    presented token. *)
Definition new_token (request_refresh_token : token) (now now_a now_r : Z)
  : M Token.t :=
  let* user := verify_refresh_token request_refresh_token now in
  match user with
  | None =>
      raise (HTTPException HTTP_401_UNAUTHORIZED INVALID_REFRESH_TOKEN)
  | Some user =>
      let new_access_token :=
        create_access_token [("sub", JStr (User.username user))] None now_a in
      let new_refresh_token :=
        create_refresh_token [("sub", JStr (User.username user))] None now_r in
      commit_refresh_token user (Some new_refresh_token) ;;
      db_refresh user ;;
      ret (Token.mk new_access_token new_refresh_token "bearer")
  end.

End Auth.

(** ** Vocabulary of the properties *)

(** The unique constraint on [users.username]. *)
Definition unique_usernames (us : list User.t) : Prop :=
  NoDup (User.username <$> us).

(** The rows that a statement on [users] selects. *)
Definition select_users (username : string) (refresh_token : option token)
    (w : World) : list User.t :=
  filter (fun u => where_username username refresh_token u = true) (users w).

(** The registered claims that a caller's own data may carry and that
    [jwt.decode] checks; [exp] and [iat] are set by the issuer. *)
Definition registered_claims_ok (data : dict) (now : Z) : Prop :=
  validate_nbf data (timegm now) = Ok tt
  /\ validate_aud data = Ok tt
  /\ validate_sub data = Ok tt
  /\ validate_jti data = Ok tt
  /\ validate_at_hash data = Ok tt.

(** The three claims that [create_token] writes. *)
Definition issuer_claims (token_type : string) (expires_delta now : Z) : dict :=
  [("exp", JInt (timegm (now + timedelta_seconds expires_delta)));
   ("iat", JInt (timegm now));
   ("token_type", JStr token_type)].

(** The contacts and groups of a user, as the two queries of the cache-hit
    path return them. *)
Definition contacts_of (w : World) (uid : Z) : list Contact.t :=
  filter (fun c => Contact.user_id c = Some uid) (contact w).

Definition groups_of (w : World) (uid : Z) : list Group.t :=
  filter (fun g => Group.user_id g = Some uid) (group w).

(** The world after the cache-miss path has stored the snapshot of [user]
    and set its timeout. *)
Definition cache_put (config : Config) (username : string) (user : User.t)
    (rnow : Z) (w : World) : World :=
  snd (redis_expire username (REDIS_EXPIRATION_TIME config) rnow
         (snd (redis_set username (UserBase.model_validate user) w))).

(** The effect of a rotation on the [users] table: the row of [username]
    is still there and still the only one, it holds [new_token], and the
    table is the old one with that row's field overwritten. *)
Definition rotated (username : string) (new_token : token) (w w' : World) : Prop :=
  unique_usernames (users w')
  /\ exists user,
       user ∈ users w /\ User.username user = username
       /\ users w' = store_refresh_token (User.id user) (Some new_token) (users w)
       /\ User.set_refresh_token user (Some new_token) ∈ users w'
       /\ forall row, row ∈ users w' -> User.username row = username ->
                      User.refresh_token row = Some new_token.

(** *** Histories

    The requests that touch the session state, each with the clock readings
    of its handler, and the world after a sequence of them has been served,
    whatever each of them returned. *)
Inductive Request : Type :=
| Login (form_data : Form.t) (now_a now_r : Z)
| Refresh (presented : token) (now now_a now_r : Z)
| Resolve (bearer : token) (now rnow : Z).

Definition serve (config : Config) (pwd_context_verify : string -> option string -> bool)
    (w : World) (req : Request) : World :=
  match req with
  | Login form_data now_a now_r =>
      snd (login_user config pwd_context_verify form_data now_a now_r w)
  | Refresh presented now now_a now_r =>
      snd (new_token config presented now now_a now_r w)
  | Resolve bearer now rnow =>
      snd (get_current_user config bearer now rnow w)
  end.

Definition serve_all (config : Config)
    (pwd_context_verify : string -> option string -> bool)
    (reqs : list Request) (w : World) : World :=
  fold_left (serve config pwd_context_verify) reqs w.

(** The request, if it succeeds, mints [tok] as its refresh token: it reads
    the clock for the refresh token at an instant at which [tok] is the
    refresh token of some subject. *)
Definition mints (config : Config) (req : Request) (tok : token) : Prop :=
  match req with
  | Login _ _ now_r | Refresh _ _ _ now_r =>
      exists username,
        create_refresh_token config [("sub", JStr username)] None now_r = tok
  | Resolve _ _ _ => False
  end.

(** No row of [username] stores [tok]. *)
Definition forgotten (username : string) (tok : token) (w : World) : Prop :=
  forall row, row ∈ users w -> User.username row = username ->
              User.refresh_token row <> Some tok.

(** ** A concrete deployment, for the examples *)

Module Sample.

Definition config : Config :=
  mkConfig "s3cret" "HS256" 3600 604800 60.

(** A stand-in for the hashing library: a digest is the password behind a
    fixed prefix. *)
Definition pwd_context_verify (plain : string) (hashed : option string) : bool :=
  bool_decide (hashed = Some ("bcrypt$" +:+ plain)).

Definition secret : string := JWT_SECRET config.
Definition algorithms : list string := [JWT_ALGORITHM config].

Definition alice : User.t :=
  User.mk 1 "alice" "alice@example.com" (Some "bcrypt$wonderland") None
    (Some 0) None (Some true) USER None None.

Definition bob : User.t :=
  User.mk 2 "bob" "bob@example.com" (Some "bcrypt$builder") None
    (Some 0) None (Some false) ADMIN None None.

Definition cat : Contact.t :=
  Contact.mk 7 "Cheshire" "Cat" "cat@example.com" "555-0100" 0 (Some 1) None true
    (Some 0) None.

Definition friends : Group.t := Group.mk 3 "friends" (Some 1).

Definition world : World := mkWorld [alice; bob] [cat] [friends] ∅ [].

Definition form : Form.t := Form.mk "alice" "wonderland".

(** Instants, in microseconds: a login at 1000.0001 s, and requests
    half a second, two seconds and eight days later. *)
Definition t_login : Z := 1000000100.
Definition t_same_second : Z := 1000500000.
Definition t_later : Z := 1002000000.
Definition t_next_week : Z := 1000000100 + timedelta_days 8.

Definition access_of (r : result Exception Token.t) : token :=
  match r with Ok t => Token.access_token t | Err _ => Raw EmptyString end.

Definition refresh_of (r : result Exception Token.t) : token :=
  match r with Ok t => Token.refresh_token t | Err _ => Raw EmptyString end.

(** The world and the tokens after alice has logged in. *)
Definition logged_in : result Exception Token.t * World :=
  login_user config pwd_context_verify form t_login t_login world.

Definition rt1 : token := refresh_of (fst logged_in).
Definition at1 : token := access_of (fst logged_in).

End Sample.

(** ** The other endpoints of the session flow

    Confirmation of an email address, the request of a confirmation mail,
    registration and the change of an avatar ([src/api/auth.py],
    [src/api/users.py]), with the functions of [src/repository/users.py]
    that they reach. These handlers are modelled with their results and
    their effect on the tables and the cache; their own statements are not
    added to [executed], which keeps recording the handlers above. *)

Definition HTTP_404_NOT_FOUND : Z := 404.
Definition HTTP_409_CONFLICT : Z := 409.

Definition USER_EMAIL_OR_NAME_ALREADY_EXISTS : string :=
  "User with email or name already exists".
Definition USER_NOT_FOUND : string := "User not found".
Definition USER_ALREADY_CONFIRMED : string := "Your email is already confirmed".
Definition USER_CONFIRMED : string := "Your email is confirmed".
Definition EMAIL_SENT : string := "Email with confirmation sent".

(** What these handlers can raise: an exception of the application, or the
    interpreter's [AttributeError] when an attribute of [None] is set. *)
Inductive Raised : Type :=
| Known (e : Exception)
| AttributeError.

Definition MX (A : Type) : Type := World -> result Raised A * World.

Definition retX {A} (a : A) : MX A := fun w => (Ok a, w).

Definition raiseX {A} (e : Raised) : MX A := fun w => (Err e, w).

Definition bindX {A B} (m : MX A) (k : A -> MX B) : MX B :=
  fun w =>
    match m w with
    | (Ok a, w') => k a w'
    | (Err e, w') => (Err e, w')
    end.

Definition lift {A} (m : M A) : MX A :=
  fun w =>
    match m w with
    | (Ok a, w') => (Ok a, w')
    | (Err e, w') => (Err (Known e), w')
    end.

Definition lift_result {A} (r : result Exception A) : MX A :=
  match r with
  | Ok a => retX a
  | Err e => raiseX (Known e)
  end.

Notation "'let+' x ':=' m 'in' k" := (bindX m (fun x => k))
  (at level 10, x name, m at level 100, k at level 200).

(** A task handed to [BackgroundTasks.add_task]. *)
Inductive Task : Type :=
| send_email (email username host : string).

(** The schema [UserCreate]. *)
Module UserCreate.
Record t : Type := mk {
  username : string;
  email : string;
  password : string;
  role : option UserRole
}.

(** [body.password = digest] *)
Definition set_password (body : t) (digest : string) : t :=
  mk (username body) (email body) digest (role body).
End UserCreate.

(** [user.confirmed = b] and [user.avatar = a] *)
Definition User_set_confirmed (u : User.t) (b : option bool) : User.t :=
  User.mk (User.id u) (User.username u) (User.email u) (User.hashed_password u)
    (User.refresh_token u) (User.created_at u) (User.avatar u) b (User.role u)
    (User.contacts u) (User.groups u).

Definition User_set_avatar (u : User.t) (a : option string) : User.t :=
  User.mk (User.id u) (User.username u) (User.email u) (User.hashed_password u)
    (User.refresh_token u) (User.created_at u) a (User.confirmed u) (User.role u)
    (User.contacts u) (User.groups u).

(** [UPDATE users SET ... WHERE id = uid], the assignment given as a
    function on the row. *)
Definition store_user (uid : Z) (change : User.t -> User.t)
    (us : list User.t) : list User.t :=
  (fun row => if bool_decide (User.id row = uid) then change row else row) <$> us.

(** The pending change of the object [u] is written at [db.commit()]. *)
Definition commit_user (u : User.t) (change : User.t -> User.t) : M unit :=
  fun w => (Ok tt, set_users (store_user (User.id u) change (users w)) w).

(** *** [src/repository/users.py], the other functions *)

Definition UserRepository_get_user_by_id (user_id : Z) : M (option User.t) :=
  fun w =>
    scalar_one_or_none (filter (fun u => User.id u = user_id) (users w)) w.

(** [filter_by(email=email)]; an email that is [None] selects the rows whose
    email is null, and the column is not nullable. *)
Definition where_email (email : option string) (u : User.t) : bool :=
  bool_decide (Some (User.email u) = email).

Definition UserRepository_get_user_by_email (email : option string)
  : M (option User.t) :=
  fun w =>
    scalar_one_or_none (filter (fun u => where_email email u = true) (users w)) w.

Definition UserRepository_confirmed_email (email : option string) : MX unit :=
  let+ user := lift (UserRepository_get_user_by_email email) in
  match user with
  | None => raiseX AttributeError
  | Some user =>
      lift (commit_user user (fun row => User_set_confirmed row (Some true)))
  end.

Definition UserRepository_update_avatar_url (email : option string)
    (avatar_url : string) : MX User.t :=
  let+ user := lift (UserRepository_get_user_by_email email) in
  match user with
  | None => raiseX AttributeError
  | Some user =>
      let+ _ := lift (commit_user user
                        (fun row => User_set_avatar row (Some avatar_url))) in
      retX (User_set_avatar user (Some avatar_url))
  end.

(** Modelled from the spec: the methods [get_user_by_email],
    [confirmed_email] and [update_avatar_url] of [UserService]
    ([src/services/users.py], not among the sources). The persistent store is
    consumed through [find_by_email] and [update_confirmed]; each method
    forwards to the repository function of its name. *)
Definition UserService_get_user_by_email (email : option string)
  : M (option User.t) :=
  UserRepository_get_user_by_email email.

Definition UserService_confirmed_email (email : option string) : MX unit :=
  UserRepository_confirmed_email email.

Definition UserService_update_avatar_url (email : option string)
    (avatar_url : string) : MX User.t :=
  UserRepository_update_avatar_url email avatar_url.

Section Endpoints.

Variable config : Config.

(** [confirm_email(token, db)] *)
Definition confirm_email (token : token) (now : Z) : MX string :=
  let+ email := lift_result (get_email_from_token config token now) in
  let+ user := lift (UserService_get_user_by_email email) in
  match user with
  | None => raiseX (Known (HTTPException HTTP_404_NOT_FOUND USER_NOT_FOUND))
  | Some user =>
      if truthy_bool (User.confirmed user)
      then retX USER_ALREADY_CONFIRMED
      else
        let+ _ := UserService_confirmed_email email in
        retX USER_CONFIRMED
  end.

(** [request_email(body, background_tasks, request, db)]: the message and
    the tasks added. *)
Definition request_email (body_email : string) (base_url : string)
  : M (string * list Task) :=
  let* user := UserService_get_user_by_email (Some body_email) in
  match user with
  | None => raise (HTTPException HTTP_404_NOT_FOUND USER_NOT_FOUND)
  | Some user =>
      if truthy_bool (User.confirmed user)
      then ret (USER_ALREADY_CONFIRMED, [])
      else ret (EMAIL_SENT,
                [send_email (User.email user) (User.username user) base_url])
  end.

(** The password hasher and [UserService.create_user], which goes through a
    file that is not among the sources, are parameters of registration. *)
Variable get_password_hash : string -> string.
Variable UserService_create_user : UserCreate.t -> M User.t.

(** [register(body, background_tasks, request, db)]: the new user and the
    tasks added. *)
Definition register (body : UserCreate.t) (base_url : string)
  : M (User.t * list Task) :=
  let* email_user := UserService_get_user_by_email (Some (UserCreate.email body)) in
  match email_user with
  | Some _ =>
      raise (HTTPException HTTP_409_CONFLICT USER_EMAIL_OR_NAME_ALREADY_EXISTS)
  | None =>
      let* username_user :=
        UserService_get_user_by_username (UserCreate.username body) None in
      match username_user with
      | Some _ =>
          raise (HTTPException HTTP_409_CONFLICT USER_EMAIL_OR_NAME_ALREADY_EXISTS)
      | None =>
          let body :=
            UserCreate.set_password body
              (get_password_hash (UserCreate.password body)) in
          let* new_user := UserService_create_user body in
          ret (new_user,
               [send_email (User.email new_user) (User.username new_user) base_url])
      end
  end.

(** [UploadFileService(...).upload_file(file, username)]: the upload to the
    image host and the URL it answers, a parameter. *)
Variable File : Type.
Variable upload_file : File -> string -> string.

(** [update_avatar(file, user, db)] of [src/api/users.py], with its
    dependency [get_current_admin_user] on [get_current_user]. *)
Definition update_avatar (token : token) (file : File) (now rnow : Z)
  : MX User.t :=
  let+ current_user := lift (get_current_user config token now rnow) in
  let+ user := lift_result (get_current_admin_user current_user) in
  let avatar_url := upload_file file (User.username user) in
  UserService_update_avatar_url (Some (User.email user)) avatar_url.

End Endpoints.

(** *** Vocabulary of the further properties *)

(** The unique constraint on [users.email] and the primary key. *)
Definition unique_emails (us : list User.t) : Prop :=
  NoDup (User.email <$> us).

Definition unique_ids (us : list User.t) : Prop :=
  NoDup (User.id <$> us).

(** The lifetime that [create_access_token] and [create_refresh_token] give
    a token: the explicit one unless it is absent or zero. *)
Definition lifetime (default : Z) (expires_delta : option Z) : Z :=
  match given expires_delta with
  | Some d => d
  | None => default
  end.

(** The presented token decodes to a subject with the kind "refresh". *)
Definition refresh_claims (config : Config) (t : token) (now : Z)
  : option string :=
  match jwt_decode t (JWT_SECRET config) [JWT_ALGORITHM config] now with
  | Ok payload =>
      if bool_decide (payload_token_type payload = Some (JStr "refresh"))
      then payload_sub payload
      else None
  | Err _ => None
  end.

(** The rows of an email. *)
Definition select_by_email (email : option string) (w : World) : list User.t :=
  filter (fun u => where_email email u = true) (users w).

(** The world after the row of [user] has been marked as confirmed. *)
Definition confirmed_world (user : User.t) (w : World) : World :=
  set_users
    (store_user (User.id user) (fun row => User_set_confirmed row (Some true))
       (users w)) w.

(** *** A scenario for the further endpoints

    The sample world again, with stand-ins for the parameters of
    registration and of the avatar endpoint. *)

Module Scenario.

Import Sample.

(** A hasher that [Sample.pwd_context_verify] verifies. *)
Definition get_password_hash (plain : string) : string := "bcrypt$" +:+ plain.

(** A stand-in for [UserService.create_user]: the row is added with the
    next id, unconfirmed. *)
Definition create_user (body : UserCreate.t) : M User.t :=
  fun w =>
    let user :=
      User.mk (1 + Z.of_nat (length (users w))) (UserCreate.username body)
        (UserCreate.email body) (Some (UserCreate.password body)) None (Some 0)
        None (Some false) (default USER (UserCreate.role body)) None None in
    (Ok user, set_users (users w ++ [user])%list w).

(** An image host that answers a URL made of the username and the file
    name. *)
Definition upload_file (file : string) (username : string) : string :=
  "https://img.example.com/" +:+ username +:+ "/" +:+ file.

Definition base_url : string := "http://testserver/".

Definition carol_body : UserCreate.t :=
  UserCreate.mk "carol" "carol@example.com" "looking-glass" None.

Definition alice_again : UserCreate.t :=
  UserCreate.mk "alice2" "alice@example.com" "looking-glass" None.

Definition bob_form : Form.t := Form.mk "bob" "builder".

Definition bob_access_token : token :=
  create_access_token config [("sub", JStr "bob")] None t_login.

Definition bob_email_token : token :=
  create_email_token config [("sub", JStr "bob@example.com")] t_login t_login.

(** A token with the claims of a session token, signed with another key. *)
Definition forged : token :=
  JWS "guess" "HS256"
    [("sub", JStr "alice"); ("exp", JInt 4600); ("iat", JInt 1000);
     ("token_type", JStr "access")].

(** The sample world with a cache entry for alice that timed out at
    999 s and still shows an old avatar. *)
Definition timed_out : World :=
  mkWorld [alice; bob] [cat] [friends]
    {[ "alice" := (UserBase.mk 1 "alice" "alice@example.com" (Some "old.png") USER,
                   Some 999000000) ]} [].

(** The world after bob has changed his avatar. *)
Definition avatar_changed : result Raised User.t * World :=
  update_avatar config string upload_file bob_access_token "face.png"
    t_later t_later world.

End Scenario.

(** * Properties *)

(** ** Dictionaries *)

Lemma dict_get_set_eq (d : dict) (k : string) (v : jvalue) :
  dict_get (dict_set d k v) k = Some v.
Proof.
  induction d as [|[k' v'] d IH]; simpl.
  - by rewrite String.eqb_refl.
  - destruct (String.eqb_spec k' k) as [->|Hne]; simpl.
    + by rewrite String.eqb_refl.
    + by destruct (String.eqb_spec k' k).
Qed.

Lemma dict_get_set_ne (d : dict) (k k' : string) (v : jvalue) :
  k <> k' -> dict_get (dict_set d k v) k' = dict_get d k'.
Proof.
  intros Hne. induction d as [|[k0 v0] d IH]; simpl.
  - by destruct (String.eqb_spec k k').
  - destruct (String.eqb_spec k0 k) as [->|Hk]; simpl.
    + by destruct (String.eqb_spec k k').
    + by rewrite IH.
Qed.

(** A key that the update does not mention reads as before. *)
Lemma dict_get_update_other (d kvs : dict) (k : string) :
  k ∉ map fst kvs -> dict_get (dict_update d kvs) k = dict_get d k.
Proof.
  unfold dict_update. revert d.
  induction kvs as [|[k0 v0] kvs IH]; intros d Hk; simpl; [done|].
  simpl in Hk. apply not_elem_of_cons in Hk as [Hne Hk].
  rewrite IH by done. apply dict_get_set_ne. congruence.
Qed.

(** The last value that the update gives to a key is the one read. *)
Lemma dict_get_update_last (d kvs : dict) (k : string) (v : jvalue) (rest : dict) :
  k ∉ map fst rest ->
  dict_get (dict_update d (kvs ++ (k, v) :: rest)%list) k = Some v.
Proof.
  intros Hk. unfold dict_update. rewrite fold_left_app. simpl.
  set (d' := fold_left (fun acc kv => dict_set acc kv.1 kv.2) kvs d).
  fold (dict_update (dict_set d' k v) rest).
  rewrite dict_get_update_other by done. apply dict_get_set_eq.
Qed.

(** ** The token codec *)

Lemma timegm_mono (a b : Z) : a <= b -> timegm a <= timegm b.
Proof. intros H. unfold timegm, MICROSECONDS. apply Z.div_le_mono; lia. Qed.

Lemma timegm_add_seconds (t s : Z) :
  timegm (t + timedelta_seconds s) = timegm t + s.
Proof.
  unfold timegm, timedelta_seconds, MICROSECONDS. rewrite Z.div_add by lia. done.
Qed.

Lemma timegm_add_seven_days (t : Z) :
  timegm (t + timedelta_days 7) = timegm t + 604800.
Proof.
  unfold timegm, timedelta_days, MICROSECONDS.
  replace (7 * 86400 * 1000000) with (604800 * 1000000) by lia.
  rewrite Z.div_add by lia. done.
Qed.

(** What a successful decoding says about the token: it was signed with the
    verifier's key under an allowed algorithm and its registered claims
    pass, in particular it has not expired and its subject, if any, is a
    string. *)
Lemma jwt_decode_ok (t : token) (key : string) (algs : list string) (now : Z)
    (payload : dict) :
  jwt_decode t key algs now = Ok payload <->
  exists alg, t = JWS key alg payload /\ alg ∈ algs
              /\ validate_claims payload (timegm now) = Ok tt.
Proof.
  unfold jwt_decode. split.
  - destruct t as [s|k alg p]; [done|].
    case_bool_decide as Halg; simpl; [|done].
    destruct (String.eqb_spec k key) as [->|]; simpl; [|done].
    destruct (validate_claims p (timegm now)) as [[]|e] eqn:Hv; [|done].
    intros [= ->]. by exists alg.
  - intros (alg & -> & Halg & Hv).
    rewrite bool_decide_true by done. rewrite String.eqb_refl. simpl.
    by rewrite Hv.
Qed.

Lemma validate_claims_not_expired (payload : dict) (now : Z) :
  validate_claims payload (timegm now) = Ok tt -> expired payload now = false.
Proof.
  unfold validate_claims, expired, validate_exp.
  destruct (validate_iat payload); [|done]. simpl.
  destruct (validate_nbf payload (timegm now)); [|done]. simpl.
  destruct (dict_get payload "exp") as [[e|s]|]; try done.
  destruct (e <? timegm now); done.
Qed.

Lemma validate_claims_sub (payload : dict) (now : Z) :
  validate_claims payload now = Ok tt ->
  dict_get payload "sub" = None \/ exists s, dict_get payload "sub" = Some (JStr s).
Proof.
  unfold validate_claims, validate_sub.
  destruct (validate_iat payload); [|done]. simpl.
  destruct (validate_nbf payload now); [|done]. simpl.
  destruct (validate_exp payload now); [|done]. simpl.
  destruct (validate_aud payload); [|done]. simpl.
  destruct (dict_get payload "sub") as [[z|s]|]; try done; eauto.
Qed.

(** After decoding, [payload.get("sub")] is [None] or a string: the reading
    [payload_sub] loses nothing. *)
Lemma jwt_decode_sub (t : token) (key : string) (algs : list string) (now : Z)
    (payload : dict) :
  jwt_decode t key algs now = Ok payload ->
  dict_get payload "sub" = JStr <$> payload_sub payload.
Proof.
  intros (alg & _ & _ & Hv)%jwt_decode_ok.
  unfold payload_sub.
  destruct (validate_claims_sub _ _ Hv) as [->|[s ->]]; done.
Qed.

Section Properties.

Variable config : Config.
Variable pwd_context_verify : string -> option string -> bool.

Abbreviation SECRET := (JWT_SECRET config).
Abbreviation ALGORITHMS := [JWT_ALGORITHM config].

(** ** Issuing and decoding *)

Lemma create_token_eq (data : dict) (token_type : string) (expires_delta now : Z) :
  create_token config data token_type expires_delta now
  = JWS SECRET (JWT_ALGORITHM config)
      (dict_update data (issuer_claims token_type expires_delta now)).
Proof. reflexivity. Qed.

Lemma issuer_claims_get (data : dict) (token_type : string) (expires_delta now : Z) :
  let claims := dict_update data (issuer_claims token_type expires_delta now) in
  dict_get claims "exp" = Some (JInt (timegm now + expires_delta))
  /\ dict_get claims "iat" = Some (JInt (timegm now))
  /\ dict_get claims "token_type" = Some (JStr token_type)
  /\ forall k, k ∉ ["exp"; "iat"; "token_type"] -> dict_get claims k = dict_get data k.
Proof.
  cbv zeta. unfold issuer_claims. rewrite timegm_add_seconds. split_and!.
  - apply (dict_get_update_last _ []). simpl. rewrite !not_elem_of_cons.
    split_and!; try done. apply not_elem_of_nil.
  - apply (dict_get_update_last _ [_]). simpl. rewrite !not_elem_of_cons.
    split_and!; try done. apply not_elem_of_nil.
  - apply (dict_get_update_last _ [_; _]). simpl. apply not_elem_of_nil.
  - intros k Hk. by apply dict_get_update_other.
Qed.

(** Decoding a token of [create_token] at [now']: the verdict depends on
    the caller's data and on whether the second of expiry has passed. *)
Lemma create_token_validate (data : dict) (token_type : string)
    (expires_delta now now' : Z) :
  timegm now' <= timegm now + expires_delta ->
  registered_claims_ok data now' ->
  validate_claims (dict_update data (issuer_claims token_type expires_delta now))
    (timegm now') = Ok tt.
Proof.
  intros Hle (Hnbf & Haud & Hsub & Hjti & Hhash).
  destruct (issuer_claims_get data token_type expires_delta now)
    as (Hexp & Hiat & _ & Hother).
  unfold validate_claims, validate_iat, validate_nbf, validate_exp, validate_aud,
    validate_sub, validate_jti, validate_at_hash in *.
  rewrite Hiat, Hexp.
  rewrite (Hother "nbf"), (Hother "aud"), (Hother "sub"), (Hother "jti"),
    (Hother "at_hash")
    by (rewrite !not_elem_of_cons; split_and!; try done; apply not_elem_of_nil).
  simpl. rewrite Hnbf. simpl.
  destruct (Z.ltb_spec (timegm now + expires_delta) (timegm now')); [lia|]. simpl.
  rewrite Haud. simpl. rewrite Hsub. simpl. rewrite Hjti. simpl. done.
Qed.

(** C7 (as amended). Decoding a token of [create_token] at an instant not
    later than issue time plus the lifetime succeeds, for data whose own
    registered claims the decoder accepts, and yields the caller's data
    with [exp], [iat] and [token_type] set by the issuer: expiry second,
    issue second and kind. Every other key reads as in the data. *)
Theorem create_token_decode (data : dict) (token_type : string)
    (expires_delta now now' : Z) :
  now' <= now + timedelta_seconds expires_delta ->
  registered_claims_ok data now' ->
  let claims := dict_update data (issuer_claims token_type expires_delta now) in
  jwt_decode (create_token config data token_type expires_delta now)
    SECRET ALGORITHMS now' = Ok claims
  /\ dict_get claims "exp" = Some (JInt (timegm now + expires_delta))
  /\ dict_get claims "iat" = Some (JInt (timegm now))
  /\ dict_get claims "token_type" = Some (JStr token_type)
  /\ forall k, k ∉ ["exp"; "iat"; "token_type"] -> dict_get claims k = dict_get data k.
Proof.
  intros Hle Hreg. split; [|apply issuer_claims_get].
  rewrite create_token_eq. apply jwt_decode_ok.
  exists (JWT_ALGORITHM config). split_and!; [done|left|].
  apply create_token_validate; [|done].
  rewrite <- timegm_add_seconds. by apply timegm_mono.
Qed.

(** ** Email-confirmation tokens *)

(** C8 (as amended). [create_email_token] signs, with the same secret and
    algorithm as [create_token], the caller's data with [iat] and [exp]
    set and nothing else: no [token_type]. The expiry is 604800 seconds
    after the second of the first clock reading. For the data
    [{"sub": email}] the payload is exactly [sub], [iat], [exp], and
    [get_email_from_token], which decodes with the same [jwt.decode],
    returns the email up to and including the second of expiry and fails
    afterwards. *)
Theorem create_email_token_spec (data : dict) (email : string)
    (now_exp now_iat now : Z) :
  create_email_token config data now_exp now_iat
  = jwt_encode
      (dict_update data [("iat", JInt (timegm now_iat));
                         ("exp", JInt (timegm now_exp + 604800))])
      SECRET (JWT_ALGORITHM config)
  /\ create_email_token config [("sub", JStr email)] now_exp now_iat
     = JWS SECRET (JWT_ALGORITHM config)
         [("sub", JStr email); ("iat", JInt (timegm now_iat));
          ("exp", JInt (timegm now_exp + 604800))]
  /\ get_email_from_token config
       (create_email_token config [("sub", JStr email)] now_exp now_iat) now
     = if timegm now <=? timegm now_exp + 604800
       then Ok (Some email)
       else Err (HTTPException HTTP_422_UNPROCESSABLE_ENTITY UNEXISTING_TOKEN).
Proof.
  unfold create_email_token, SEVEN_DAYS. rewrite timegm_add_seven_days.
  split_and!; [done..|].
  unfold get_email_from_token, jwt_encode, jwt_decode.
  rewrite bool_decide_true by left. rewrite String.eqb_refl. simpl.
  unfold validate_claims, validate_exp. simpl.
  destruct (Z.ltb_spec (timegm now_exp + 604800) (timegm now));
    destruct (Z.leb_spec (timegm now) (timegm now_exp + 604800)); try lia; done.
Qed.

(** ** The administrator check *)

(** C9. [get_current_admin_user] returns an ADMIN identity unchanged and
    fails with 403 for every other role, in particular for USER. *)
Theorem get_current_admin_user_spec (current_user : User.t) :
  (User.role current_user = ADMIN ->
   get_current_admin_user current_user = Ok current_user)
  /\ (User.role current_user <> ADMIN ->
      get_current_admin_user current_user
      = Err (HTTPException HTTP_403_FORBIDDEN INSUFFICIENT_PERMISSIONS))
  /\ (User.role current_user = USER ->
      get_current_admin_user current_user
      = Err (HTTPException HTTP_403_FORBIDDEN INSUFFICIENT_PERMISSIONS)).
Proof.
  unfold get_current_admin_user. split_and!; intros H.
  - by rewrite bool_decide_true.
  - by rewrite bool_decide_false.
  - rewrite bool_decide_false; [done|]. by rewrite H.
Qed.

(** ** The kind of a token at the three decoding sites *)

Lemma email_token_eq (data : dict) (now_exp now_iat : Z) :
  create_email_token config data now_exp now_iat
  = JWS SECRET (JWT_ALGORITHM config)
      (dict_update data [("iat", JInt (timegm now_iat));
                         ("exp", JInt (timegm (now_exp + SEVEN_DAYS)))]).
Proof. reflexivity. Qed.

(** [get_current_user] with a payload that is not an access token's. *)
Lemma get_current_user_wrong_kind (token : token) (now rnow : Z) (payload : dict)
    (w : World) :
  jwt_decode token SECRET ALGORITHMS now = Ok payload ->
  payload_token_type payload <> Some (JStr "access") ->
  get_current_user config token now rnow w = (Err credentials_exception, w).
Proof.
  intros Hdec Hkind. unfold get_current_user. rewrite Hdec.
  destruct (payload_sub payload); [|done].
  by rewrite bool_decide_false.
Qed.

Lemma verify_refresh_token_wrong_kind (token : token) (now : Z) (payload : dict)
    (w : World) :
  jwt_decode token SECRET ALGORITHMS now = Ok payload ->
  payload_token_type payload <> Some (JStr "refresh") ->
  verify_refresh_token config token now w = (Err credentials_exception, w).
Proof.
  intros Hdec Hkind. unfold verify_refresh_token. rewrite Hdec.
  destruct (payload_sub payload); [|done].
  by rewrite bool_decide_false.
Qed.

(** A token that does not decode is refused at both session sites. *)
Lemma get_current_user_undecodable (token : token) (now rnow : Z) (e : JWTError)
    (w : World) :
  jwt_decode token SECRET ALGORITHMS now = Err e ->
  get_current_user config token now rnow w = (Err credentials_exception, w).
Proof. intros Hdec. unfold get_current_user. by rewrite Hdec. Qed.

Lemma verify_refresh_token_undecodable (token : token) (now : Z) (e : JWTError)
    (w : World) :
  jwt_decode token SECRET ALGORITHMS now = Err e ->
  verify_refresh_token config token now w = (Err credentials_exception, w).
Proof. intros Hdec. unfold verify_refresh_token. by rewrite Hdec. Qed.

(** C4 (as amended). For a token that decodes (validly signed, not
    expired): access-token resolution refuses it with the 401
    unverified-credentials error unless its kind is "access";
    refresh-token verification, and with it the refresh endpoint, refuses
    it with the same error unless its kind is "refresh"; the consumption
    of an email-confirmation token looks at no kind and returns the
    subject of any such token. *)
Theorem token_kind_at_call_sites (token : token) (now : Z) (payload : dict) :
  jwt_decode token SECRET ALGORITHMS now = Ok payload ->
  (payload_token_type payload <> Some (JStr "access") ->
   forall rnow w,
     get_current_user config token now rnow w = (Err credentials_exception, w))
  /\ (payload_token_type payload <> Some (JStr "refresh") ->
      forall w,
        verify_refresh_token config token now w = (Err credentials_exception, w)
        /\ forall now_a now_r,
             new_token config token now now_a now_r w
             = (Err credentials_exception, w))
  /\ get_email_from_token config token now = Ok (payload_sub payload).
Proof.
  intros Hdec. split_and!.
  - intros Hkind rnow w. by eapply get_current_user_wrong_kind.
  - intros Hkind w.
    pose proof (verify_refresh_token_wrong_kind _ _ _ w Hdec Hkind) as Hv.
    split; [done|]. intros now_a now_r. unfold new_token, bind. by rewrite Hv.
  - unfold get_email_from_token. by rewrite Hdec.
Qed.

(** C10 (as amended). A token of [create_email_token] is refused by
    access-token resolution, with the 401 unverified-credentials error and
    at every instant, when the caller's data has no [token_type] entry
    saying "access", and by refresh-token verification when it has none
    saying "refresh"; both hold for data without a [token_type] entry,
    such as [{"sub": email}]. *)
Theorem email_token_refused_as_session_token (data : dict)
    (now_exp now_iat now : Z) :
  (dict_get data "token_type" <> Some (JStr "access") ->
   forall rnow w,
     get_current_user config (create_email_token config data now_exp now_iat)
       now rnow w = (Err credentials_exception, w))
  /\ (dict_get data "token_type" <> Some (JStr "refresh") ->
      forall w,
        verify_refresh_token config (create_email_token config data now_exp now_iat)
          now w = (Err credentials_exception, w)).
Proof.
  set (token := create_email_token config data now_exp now_iat).
  assert (Hkind : forall payload,
             jwt_decode token SECRET ALGORITHMS now = Ok payload ->
             payload_token_type payload = dict_get data "token_type").
  { intros payload (alg & Heq & _)%jwt_decode_ok.
    unfold token in Heq. rewrite email_token_eq in Heq.
    injection Heq as _ <-. unfold payload_token_type.
    by rewrite !dict_get_set_ne. }
  split; intros Hdata.
  - intros rnow w.
    destruct (jwt_decode token SECRET ALGORITHMS now) as [payload|e] eqn:Hdec.
    + eapply get_current_user_wrong_kind; [done|]. by rewrite Hkind.
    + by eapply get_current_user_undecodable.
  - intros w.
    destruct (jwt_decode token SECRET ALGORITHMS now) as [payload|e] eqn:Hdec.
    + eapply verify_refresh_token_wrong_kind; [done|]. by rewrite Hkind.
    + by eapply verify_refresh_token_undecodable.
Qed.

(** ** Looking a user up *)

Lemma where_username_None (username : string) (u : User.t) :
  where_username username None u = true <-> User.username u = username.
Proof.
  unfold where_username. rewrite andb_true_r. apply String.eqb_eq.
Qed.

Lemma where_username_Some (username : string) (tok : token) (u : User.t) :
  token_truthy tok = true ->
  where_username username (Some tok) u = true
  <-> User.username u = username /\ User.refresh_token u = Some tok.
Proof.
  intros Htok. unfold where_username. rewrite Htok, andb_true_iff.
  by rewrite String.eqb_eq, bool_decide_eq_true.
Qed.

Lemma get_user_by_username_eq (username : string) (refresh_token : option token)
    (w : World) :
  UserService_get_user_by_username username refresh_token w
  = (match select_users username refresh_token w with
     | [] => Ok None
     | [row] => Ok (Some row)
     | _ => Err MultipleResultsFound
     end,
     db_log (SelectUser username refresh_token) w).
Proof.
  unfold UserService_get_user_by_username, UserRepository_get_user_by_username,
    bind, execute_select_user, select_users.
  by destruct (filter _ (users w)) as [|row [|row' rows]].
Qed.

(** Under the unique constraint a lookup by username alone finds no row or
    the one row of that user. *)
Lemma select_users_unique (username : string) (w : World) :
  unique_usernames (users w) ->
  (select_users username None w = []
   /\ forall u, u ∈ users w -> User.username u <> username)
  \/ (exists u, select_users username None w = [u]
                /\ u ∈ users w /\ User.username u = username
                /\ forall u', u' ∈ users w -> User.username u' = username -> u' = u).
Proof.
  unfold unique_usernames, select_users.
  induction (users w) as [|u0 us IH]; intros Hnd.
  { left. split; [done|]. intros u Hu. by apply elem_of_nil in Hu. }
  rewrite fmap_cons in Hnd. apply NoDup_cons in Hnd as [Hfresh Hnd].
  destruct (decide (User.username u0 = username)) as [Hu0|Hu0].
  - right. exists u0.
    rewrite filter_cons_True by by apply where_username_None.
    assert (Hrest : forall u, u ∈ us -> User.username u <> username).
    { intros u Hu Heq. apply Hfresh. rewrite Hu0, <- Heq.
      by apply list_elem_of_fmap_2. }
    split_and!.
    + f_equal. destruct (filter _ us) as [|u rows] eqn:Hf; [done|].
      assert (Hin : u ∈ filter (fun u => where_username username None u = true) us)
        by (rewrite Hf; left).
      apply list_elem_of_filter in Hin as [Hw Hin].
      apply where_username_None in Hw. by destruct (Hrest u).
    + left.
    + done.
    + intros u' [->|Hin]%elem_of_cons Heq; [done|]. by destruct (Hrest u').
  - rewrite filter_cons_False by by rewrite where_username_None.
    destruct (IH Hnd) as [[Hnil Hnone]|(u & Hone & Hin & Hname & Huniq)].
    + left. split; [done|].
      intros u [->|Hin]%elem_of_cons; [done|]. by apply Hnone.
    + right. exists u. split_and!; [done|by right|done|].
      intros u' [->|Hin']%elem_of_cons Heq; [done|]. by apply Huniq.
Qed.

(** ** Login *)

Lemma login_user_eq (form_data : Form.t) (now_a now_r : Z) (w : World) :
  login_user config pwd_context_verify form_data now_a now_r w
  = let w1 := db_log (SelectUser (Form.username form_data) None) w in
    match select_users (Form.username form_data) None w with
    | [] => (Err (HTTPException HTTP_401_UNAUTHORIZED INVALID_CREDENTIALS), w1)
    | [user] =>
        if negb (verify_password pwd_context_verify (Form.password form_data)
                   (User.hashed_password user))
        then (Err (HTTPException HTTP_401_UNAUTHORIZED INVALID_CREDENTIALS), w1)
        else if negb (truthy_bool (User.confirmed user))
        then (Err (HTTPException HTTP_401_UNAUTHORIZED USER_NOT_CONFIRMED), w1)
        else
          let data := [("sub", JStr (User.username user))] in
          let refresh_token := create_refresh_token config data None now_r in
          (Ok (Token.mk (create_access_token config data None now_a)
                 refresh_token "bearer"),
           snd (db_refresh user
                  (snd (commit_refresh_token user (Some refresh_token) w1))))
    | _ => (Err MultipleResultsFound, w1)
    end.
Proof.
  unfold login_user, bind at 1. rewrite get_user_by_username_eq. cbv zeta.
  destruct (select_users _ None w) as [|user [|user' rows]]; try done.
  destruct (verify_password _ _ _); [|done]. simpl.
  destruct (truthy_bool _); done.
Qed.

(** C3. With unique usernames: for a registered identity whose stored
    hash verifies against the presented password, login succeeds exactly
    when the identity is confirmed, returning the access and refresh token
    pair, and fails with the not-confirmed error otherwise; when no
    identity has the username, or the hash does not verify, login fails
    with the invalid-credentials error. *)
Theorem login_user_spec (form_data : Form.t) (now_a now_r : Z) (w : World) :
  unique_usernames (users w) ->
  let r := fst (login_user config pwd_context_verify form_data now_a now_r w) in
  (forall user,
      user ∈ users w -> User.username user = Form.username form_data ->
      verify_password pwd_context_verify (Form.password form_data)
        (User.hashed_password user) = true ->
      (is_ok r = true <-> User.confirmed user = Some true)
      /\ (User.confirmed user = Some true ->
          r = Ok (Token.mk
                    (create_access_token config
                       [("sub", JStr (User.username user))] None now_a)
                    (create_refresh_token config
                       [("sub", JStr (User.username user))] None now_r)
                    "bearer"))
      /\ (User.confirmed user <> Some true ->
          r = Err (HTTPException HTTP_401_UNAUTHORIZED USER_NOT_CONFIRMED)))
  /\ ((forall user, user ∈ users w -> User.username user <> Form.username form_data) ->
      r = Err (HTTPException HTTP_401_UNAUTHORIZED INVALID_CREDENTIALS))
  /\ (forall user,
         user ∈ users w -> User.username user = Form.username form_data ->
         verify_password pwd_context_verify (Form.password form_data)
           (User.hashed_password user) = false ->
         r = Err (HTTPException HTTP_401_UNAUTHORIZED INVALID_CREDENTIALS)).
Proof.
  intros Huniq. cbv zeta. rewrite login_user_eq. cbv zeta.
  destruct (select_users_unique (Form.username form_data) w Huniq)
    as [[-> Hnone]|(u & -> & Hin & Hname & Hone)].
  - split_and!; [|done|].
    + intros user Huser Heq. by destruct (Hnone user).
    + intros user Huser Heq. by destruct (Hnone user).
  - split_and!.
    + intros user Huser Heq Hpwd. rewrite <- (Hone user Huser Heq), Hpwd. simpl.
      destruct (User.confirmed user) as [[]|]; simpl; split_and!; done.
    + intros Hnone. by destruct (Hnone u).
    + intros user Huser Heq Hpwd. rewrite <- (Hone user Huser Heq), Hpwd. done.
Qed.

(** ** Resolving the bearer of an access token *)

Lemma redis_expire_ok (key : string) (seconds now : Z) (w : World) :
  fst (redis_expire key seconds now w) = Ok tt.
Proof.
  unfold redis_expire. destruct (redis_lookup _ _ _); [|done].
  by destruct (seconds <=? 0).
Qed.

Lemma get_current_user_eq (token : token) (now rnow : Z) (w : World) :
  get_current_user config token now rnow w
  = match jwt_decode token SECRET ALGORITHMS now with
    | Err _ => (Err credentials_exception, w)
    | Ok payload =>
        match payload_sub payload with
        | None => (Err credentials_exception, w)
        | Some username =>
            if negb (bool_decide (payload_token_type payload = Some (JStr "access")))
            then (Err credentials_exception, w)
            else
              match redis_lookup (redis w) username rnow with
              | Some user =>
                  (Ok (User_of_cache user (contacts_of w (UserBase.id user))
                         (groups_of w (UserBase.id user))),
                   db_log (SelectGroup (UserBase.id user))
                     (db_log (SelectContact (UserBase.id user)) w))
              | None =>
                  let w1 := db_log (SelectUser username None) w in
                  match select_users username None w with
                  | [] => (Err credentials_exception, w1)
                  | [user] => (Ok user, cache_put config username user rnow w1)
                  | _ => (Err MultipleResultsFound, w1)
                  end
              end
        end
    end.
Proof.
  unfold get_current_user.
  destruct (jwt_decode _ _ _ _) as [payload|e]; [|done].
  destruct (payload_sub payload) as [username|]; [|done].
  case_bool_decide; simpl; [|done].
  unfold bind at 1, redis_get.
  destruct (redis_lookup _ _ _) as [user|]; [done|].
  unfold bind at 1. rewrite get_user_by_username_eq. cbv zeta.
  destruct (select_users _ None w) as [|user [|user' rows]]; try done.
  unfold bind, cache_put. simpl.
  match goal with
  | |- context [redis_expire ?k ?s ?n ?w0] =>
      pose proof (redis_expire_ok k s n w0) as Hok;
      destruct (redis_expire k s n w0) as [r w']
  end.
  simpl in Hok. by subst r.
Qed.

Lemma payload_sub_Some (payload : dict) (username : string) :
  dict_get payload "sub" = Some (JStr username) -> payload_sub payload = Some username.
Proof. unfold payload_sub. by intros ->. Qed.

(** C2. With unique usernames, [get_current_user] returns an identity
    exactly when the token decodes under the process secret, is not
    expired, has kind "access", and its subject is a username with a live
    cache entry or a row in the store; in every other case it fails with
    the 401 unverified-credentials error. The identity returned is the
    subject's: with a live cache entry under the subject, the user whose
    id, username, email, avatar and role are those of the cached snapshot,
    with the contacts and groups of that id and no other attribute set;
    without one, the row of the [users] table whose username is the
    subject. Its username is the subject whenever the snapshot cached
    under the subject carries the subject as its username. *)
Theorem get_current_user_iff (token : token) (now rnow : Z) (w : World) :
  unique_usernames (users w) ->
  let r := fst (get_current_user config token now rnow w) in
  (is_ok r = true <->
   exists payload username,
     jwt_decode token SECRET ALGORITHMS now = Ok payload
     /\ expired payload now = false
     /\ payload_token_type payload = Some (JStr "access")
     /\ dict_get payload "sub" = Some (JStr username)
     /\ (is_Some (redis_lookup (redis w) username rnow)
         \/ exists user, user ∈ users w /\ User.username user = username))
  /\ (is_ok r = false -> r = Err credentials_exception)
  /\ (forall payload username,
         jwt_decode token SECRET ALGORITHMS now = Ok payload ->
         payload_token_type payload = Some (JStr "access") ->
         dict_get payload "sub" = Some (JStr username) ->
         (forall snapshot,
             redis_lookup (redis w) username rnow = Some snapshot ->
             r = Ok (User.mk (UserBase.id snapshot) (UserBase.username snapshot)
                       (UserBase.email snapshot) None None None
                       (UserBase.avatar snapshot) None (UserBase.role snapshot)
                       (Some (filter (fun c => Contact.user_id c
                                               = Some (UserBase.id snapshot))
                                (contact w)))
                       (Some (filter (fun g => Group.user_id g
                                               = Some (UserBase.id snapshot))
                                (group w)))))
         /\ (redis_lookup (redis w) username rnow = None ->
             forall user,
               user ∈ users w -> User.username user = username -> r = Ok user)
         /\ ((forall snapshot,
                 redis_lookup (redis w) username rnow = Some snapshot ->
                 UserBase.username snapshot = username) ->
             forall identity, r = Ok identity -> User.username identity = username)).
Proof.
  intros Huniq. cbv zeta. apply and_assoc. split.
  2:{ intros payload username Hdec Hkind Hsub.
      rewrite get_current_user_eq, Hdec, (payload_sub_Some _ _ Hsub).
      rewrite bool_decide_true by done. cbn [negb].
      destruct (redis_lookup (redis w) username rnow) as [snap|] eqn:Hredis.
      { cbn [fst]. split_and!.
        - by intros snapshot [= <-].
        - done.
        - intros Hkeyed identity [= <-]. by apply Hkeyed. }
      cbv zeta.
      destruct (select_users_unique username w Huniq)
        as [[-> Hnone]|(u & -> & Hin & Hu & Hone)]; cbn [fst].
      - split_and!; try done. intros _ user Huser Heq. by destruct (Hnone user).
      - split_and!; try done.
        + intros _ user Huser Heq. by rewrite (Hone user Huser Heq).
        + intros _ identity [= <-]. done. }
  rewrite get_current_user_eq.
  destruct (jwt_decode token SECRET ALGORITHMS now) as [payload|e] eqn:Hdec.
  2:{ split; [|done]. split; [done|]. by intros (p & u & [=] & _). }
  pose proof (jwt_decode_sub _ _ _ _ _ Hdec) as Hsub.
  destruct (payload_sub payload) as [username|] eqn:Hname.
  2:{ split; [|done]. split; [done|].
      intros (p & u & [= <-] & _ & _ & Hu & _). simpl in Hsub. congruence. }
  simpl in Hsub.
  case_bool_decide as Hkind; simpl.
  2:{ split; [|done]. split; [done|].
      intros (p & u & [= <-] & _ & Hk & _). done. }
  assert (Hexp : expired payload now = false).
  { apply jwt_decode_ok in Hdec as (alg & _ & _ & Hv).
    by apply validate_claims_not_expired. }
  destruct (redis_lookup (redis w) username rnow) as [snap|] eqn:Hredis.
  { split; [|done]. split; [|done]. intros _. exists payload, username.
    rewrite Hredis. split_and!; eauto. }
  cbv zeta.
  destruct (select_users_unique username w Huniq)
    as [[-> Hnone]|(u & -> & Hin & Hu & _)].
  - split; [|done]. split; [done|].
    intros (p & u & [= <-] & _ & _ & Hu & Hor).
    assert (u = username) as -> by congruence.
    destruct Hor as [[snap Hsnap]|(user & Hin & Heq)]; [congruence|].
    by destruct (Hnone user Hin).
  - split; [|done]. split; [|done]. intros _. exists payload, username.
    split_and!; eauto.
Qed.

(** ** The identity cache *)

Lemma redis_lookup_insert (r : gmap string (UserBase.t * option Z))
    (key : string) (value : UserBase.t) (expires : option Z) (now : Z) :
  redis_lookup (<[key := (value, expires)]> r) key now
  = if live (value, expires) now then Some value else None.
Proof. unfold redis_lookup. by rewrite lookup_insert_eq. Qed.

(** What the cache-miss path leaves behind: the tables and the log are
    untouched, the entry of the username holds the snapshot and expires
    [REDIS_EXPIRATION_TIME] seconds later, the other entries stay. *)
Lemma cache_put_spec (username : string) (user : User.t) (rnow : Z) (w : World) :
  0 < REDIS_EXPIRATION_TIME config ->
  let w' := cache_put config username user rnow w in
  users w' = users w /\ contact w' = contact w /\ group w' = group w
  /\ executed w' = executed w
  /\ redis w' !! username
     = Some (UserBase.model_validate user,
             Some (rnow + timedelta_seconds (REDIS_EXPIRATION_TIME config)))
  /\ forall key, key <> username -> redis w' !! key = redis w !! key.
Proof.
  intros Httl. unfold cache_put, redis_expire, redis_set. simpl.
  rewrite redis_lookup_insert. simpl.
  destruct (Z.leb_spec (REDIS_EXPIRATION_TIME config) 0); [lia|]. simpl.
  split_and!; try done.
  - by rewrite lookup_insert_eq.
  - intros key Hkey. by rewrite !lookup_insert_ne.
Qed.

(** C5 (as amended). Let a token decode to the subject [username].
    A successful [get_current_user] that finds no live cache entry for
    [username] reads the user from the [users] table with one statement
    and stores the snapshot under [username] with a timeout of
    [REDIS_EXPIRATION_TIME] seconds. While that entry is in place and the
    timeout has not run out, every [get_current_user] for an access token
    of the same subject succeeds without reading the [users] table: it
    executes exactly two statements, one on the contacts and one on the
    groups of the cached id, and returns the identity rebuilt from the
    snapshot with those two relations loaded. *)
Theorem cache_population_then_hit (tok : token) (payload : dict)
    (username : string) (now rnow : Z) (w w' : World) (user : User.t) :
  0 < REDIS_EXPIRATION_TIME config ->
  jwt_decode tok SECRET ALGORITHMS now = Ok payload ->
  payload_sub payload = Some username ->
  redis_lookup (redis w) username rnow = None ->
  get_current_user config tok now rnow w = (Ok user, w') ->
  let snapshot := UserBase.model_validate user in
  let expires := rnow + timedelta_seconds (REDIS_EXPIRATION_TIME config) in
  user ∈ users w
  /\ executed w' = (executed w ++ [SelectUser username None])%list
  /\ redis w' !! username = Some (snapshot, Some expires)
  /\ forall (tok2 : token) (payload2 : dict) (now2 rnow2 : Z) (w2 : World),
       jwt_decode tok2 SECRET ALGORITHMS now2 = Ok payload2 ->
       payload_sub payload2 = Some username ->
       payload_token_type payload2 = Some (JStr "access") ->
       redis w2 !! username = redis w' !! username ->
       rnow2 < expires ->
       let uid := User.id user in
       let r := get_current_user config tok2 now2 rnow2 w2 in
       fst r = Ok (User_of_cache snapshot (contacts_of w2 uid) (groups_of w2 uid))
       /\ executed (snd r) = (executed w2 ++ [SelectContact uid; SelectGroup uid])%list
       /\ users (snd r) = users w2 /\ redis (snd r) = redis w2.
Proof.
  intros Httl Hdec Hsub Hmiss Hrun. cbv zeta.
  rewrite get_current_user_eq, Hdec, Hsub, Hmiss in Hrun.
  destruct (negb _); [done|]. cbv zeta in Hrun.
  destruct (select_users username None w) as [|row [|row' rows]] eqn:Hsel;
    [done| |done].
  injection Hrun as -> <-.
  destruct (cache_put_spec username user rnow (db_log (SelectUser username None) w) Httl)
    as (_ & _ & _ & Hlog & Hentry & _).
  assert (Hin : user ∈ select_users username None w) by (rewrite Hsel; left).
  apply list_elem_of_filter in Hin as [_ Hin].
  split_and!; [done|done|done|].
  intros tok2 payload2 now2 rnow2 w2 Hdec2 Hsub2 Hkind2 Hsame Hlive.
  assert (Hhit : redis_lookup (redis w2) username rnow2
                 = Some (UserBase.model_validate user)).
  { unfold redis_lookup. rewrite Hsame, Hentry. unfold live. simpl.
    by destruct (Z.ltb_spec rnow2
                   (rnow + timedelta_seconds (REDIS_EXPIRATION_TIME config)));
      [|lia]. }
  rewrite get_current_user_eq, Hdec2, Hsub2, Hkind2, Hhit.
  rewrite bool_decide_true by done. simpl.
  split_and!; try done. by rewrite <- app_assoc.
Qed.

(** ** Rotation of the refresh token *)

Lemma verify_refresh_token_eq (refresh_token : token) (now : Z) (w : World) :
  verify_refresh_token config refresh_token now w
  = match jwt_decode refresh_token SECRET ALGORITHMS now with
    | Err _ => (Err credentials_exception, w)
    | Ok payload =>
        match payload_sub payload with
        | None => (Err credentials_exception, w)
        | Some username =>
            if negb (bool_decide (payload_token_type payload = Some (JStr "refresh")))
            then (Err credentials_exception, w)
            else
              (match select_users username (Some refresh_token) w with
               | [] => Ok None
               | [row] => Ok (Some row)
               | _ => Err MultipleResultsFound
               end,
               db_log (SelectUser username (Some refresh_token)) w)
        end
    end.
Proof.
  unfold verify_refresh_token.
  destruct (jwt_decode _ _ _ _) as [payload|e]; [|done].
  destruct (payload_sub payload) as [username|]; [|done].
  case_bool_decide; simpl; [|done].
  apply get_user_by_username_eq.
Qed.

(** The world after a login or a refresh has stored [refresh_token] for
    [user]: one update and the re-read of the row. *)
Lemma rotation_world (user : User.t) (refresh_token : token) (w : World) :
  let w' := snd (db_refresh user
                   (snd (commit_refresh_token user (Some refresh_token) w))) in
  users w' = store_refresh_token (User.id user) (Some refresh_token) (users w)
  /\ redis w' = redis w
  /\ executed w'
     = (executed w ++ [UpdateUser (User.id user) (Some refresh_token);
                       SelectUserById (User.id user)])%list.
Proof. simpl. split_and!; try done. by rewrite <- app_assoc. Qed.

Lemma new_token_eq (refresh_token : token) (now now_a now_r : Z) (w : World) :
  new_token config refresh_token now now_a now_r w
  = match verify_refresh_token config refresh_token now w with
    | (Err e, w1) => (Err e, w1)
    | (Ok None, w1) =>
        (Err (HTTPException HTTP_401_UNAUTHORIZED INVALID_REFRESH_TOKEN), w1)
    | (Ok (Some user), w1) =>
        let data := [("sub", JStr (User.username user))] in
        let new_refresh_token := create_refresh_token config data None now_r in
        (Ok (Token.mk (create_access_token config data None now_a)
               new_refresh_token "bearer"),
         snd (db_refresh user
                (snd (commit_refresh_token user (Some new_refresh_token) w1))))
    end.
Proof.
  unfold new_token, bind at 1.
  by destruct (verify_refresh_token _ _ _ _) as [[[user|]|e] w1].
Qed.

Lemma store_refresh_token_usernames (uid : Z) (tok : option token)
    (us : list User.t) :
  User.username <$> store_refresh_token uid tok us = User.username <$> us.
Proof.
  unfold store_refresh_token. rewrite <- list_fmap_compose.
  apply list_fmap_ext. intros _ row _. simpl. by case_bool_decide.
Qed.

(** After the update, a row with the id holds the new token and any other
    row is a row of the old table. *)
Lemma store_refresh_token_elem (uid : Z) (tok : option token)
    (us : list User.t) (row' : User.t) :
  row' ∈ store_refresh_token uid tok us ->
  exists row, row ∈ us /\ User.username row' = User.username row
              /\ User.id row' = User.id row
              /\ if bool_decide (User.id row = uid)
                 then User.refresh_token row' = tok
                 else row' = row.
Proof.
  unfold store_refresh_token. intros (row & -> & Hin)%list_elem_of_fmap.
  exists row. by case_bool_decide.
Qed.

(** A refresh token that is accepted for a user is the one stored in the
    user's row. *)
Lemma verify_refresh_token_stored (refresh_token : token) (now : Z) (w : World)
    (user : User.t) :
  fst (verify_refresh_token config refresh_token now w) = Ok (Some user) ->
  user ∈ users w
  /\ User.refresh_token user = Some refresh_token
  /\ exists payload,
       jwt_decode refresh_token SECRET ALGORITHMS now = Ok payload
       /\ payload_sub payload = Some (User.username user)
       /\ payload_token_type payload = Some (JStr "refresh")
       /\ select_users (User.username user) (Some refresh_token) w = [user].
Proof.
  rewrite verify_refresh_token_eq.
  destruct (jwt_decode _ _ _ _) as [payload|e] eqn:Hdec; [|done].
  destruct (payload_sub payload) as [username|] eqn:Hsub; [|done].
  case_bool_decide as Hkind; simpl; [|done].
  destruct (select_users _ _ w) as [|row [|row' rows]] eqn:Hsel; try done.
  intros [= ->].
  assert (Hin : user ∈ select_users username (Some refresh_token) w)
    by (rewrite Hsel; left).
  apply list_elem_of_filter in Hin as [Hw Hin].
  apply jwt_decode_ok in Hdec as Hjws. destruct Hjws as (alg & -> & _).
  apply where_username_Some in Hw as [<- Htok]; [|done].
  split_and!; [done..|]. exists payload. by rewrite Hsel.
Qed.

Lemma unique_usernames_eq (w : World) (u1 u2 : User.t) :
  unique_usernames (users w) ->
  u1 ∈ users w -> u2 ∈ users w -> User.username u1 = User.username u2 -> u1 = u2.
Proof.
  intros Huniq H1 H2 Heq.
  destruct (select_users_unique (User.username u1) w Huniq)
    as [[_ Hnone]|(u & _ & _ & _ & Hone)].
  - by destruct (Hnone u1).
  - rewrite (Hone u1), (Hone u2); done.
Qed.

Lemma rotation_rotated (user : User.t) (new_token : token) (w w1 : World) :
  unique_usernames (users w) -> user ∈ users w -> users w1 = users w ->
  rotated (User.username user) new_token w
    (snd (db_refresh user (snd (commit_refresh_token user (Some new_token) w1)))).
Proof.
  intros Huniq Hin Hw1.
  destruct (rotation_world user new_token w1) as (Husers & _). cbv zeta in Husers.
  unfold rotated. rewrite Husers, Hw1. split.
  { unfold unique_usernames. by rewrite store_refresh_token_usernames. }
  exists user. split_and!; try done.
  - unfold store_refresh_token.
    eapply list_elem_of_fmap_2'; [done|]. by rewrite bool_decide_true.
  - intros row' (row & Hrow & Hname & _ & Hcase)%store_refresh_token_elem Heq.
    assert (row = user) as -> by (eapply unique_usernames_eq; [done..|congruence]).
    by rewrite bool_decide_true in Hcase.
Qed.

(** C6. With unique usernames: at any time at most one refresh token is
    accepted for an identity, the one in its row; a successful login and a
    successful refresh each mint a refresh token, return it, and overwrite
    with it the stored field of the identity, so that the identity's row
    holds the new token and no other value. *)
Theorem one_refresh_token_per_identity (w : World) :
  unique_usernames (users w) ->
  (forall (t1 t2 : token) (now1 now2 : Z) (u1 u2 : User.t),
      fst (verify_refresh_token config t1 now1 w) = Ok (Some u1) ->
      fst (verify_refresh_token config t2 now2 w) = Ok (Some u2) ->
      User.username u1 = User.username u2 -> t1 = t2)
  /\ (forall (form_data : Form.t) (now_a now_r : Z) (response : Token.t) (w' : World),
         login_user config pwd_context_verify form_data now_a now_r w
         = (Ok response, w') ->
         Token.refresh_token response
         = create_refresh_token config
             [("sub", JStr (Form.username form_data))] None now_r
         /\ rotated (Form.username form_data) (Token.refresh_token response) w w')
  /\ (forall (presented : token) (now now_a now_r : Z) (response : Token.t)
             (w' : World),
         new_token config presented now now_a now_r w = (Ok response, w') ->
         exists user,
           fst (verify_refresh_token config presented now w) = Ok (Some user)
           /\ Token.refresh_token response
              = create_refresh_token config
                  [("sub", JStr (User.username user))] None now_r
           /\ rotated (User.username user) (Token.refresh_token response) w w').
Proof.
  intros Huniq. split_and!.
  - intros t1 t2 now1 now2 u1 u2
      (Hin1 & Htok1 & _)%verify_refresh_token_stored
      (Hin2 & Htok2 & _)%verify_refresh_token_stored Heq.
    assert (u1 = u2) as -> by by eapply unique_usernames_eq.
    congruence.
  - intros form_data now_a now_r response w'. rewrite login_user_eq. cbv zeta.
    destruct (select_users_unique (Form.username form_data) w Huniq)
      as [[-> _]|(u & -> & Hin & Hname & _)]; [done|].
    destruct (negb (verify_password _ _ _)); [done|].
    destruct (negb (truthy_bool _)); [done|].
    intros [= <- <-]. simpl. rewrite <- Hname. split; [done|].
    by apply (rotation_rotated u _ w (db_log (SelectUser (User.username u) None) w)).
  - intros presented now now_a now_r response w'. rewrite new_token_eq.
    destruct (verify_refresh_token config presented now w)
      as [[[user|]|e] w1] eqn:Hverify; [|done..].
    cbv zeta. intros [= <- <-]. exists user. simpl. split_and!; [done..|].
    pose proof (verify_refresh_token_stored presented now w user) as Hstored.
    rewrite Hverify in Hstored. destruct (Hstored eq_refl) as (Hin & _).
    apply rotation_rotated; [done..|].
    rewrite verify_refresh_token_eq in Hverify.
    destruct (jwt_decode _ _ _ _); [|by injection Hverify as _ <-].
    destruct (payload_sub _); [|by injection Hverify as _ <-].
    destruct (negb _); by injection Hverify as _ <-.
Qed.

(** ** Supersession *)

Lemma select_users_superseded (username : string) (rt1 new_token : token)
    (user : User.t) (w w' : World) :
  token_truthy rt1 = true ->
  select_users username (Some rt1) w = [user] ->
  new_token <> rt1 ->
  users w' = store_refresh_token (User.id user) (Some new_token) (users w) ->
  select_users username (Some rt1) w' = [].
Proof.
  intros Htruthy Hsel Hne Husers.
  destruct (select_users username (Some rt1) w') as [|row' rows] eqn:Hsel'; [done|].
  exfalso.
  assert (Hin' : row' ∈ select_users username (Some rt1) w') by (rewrite Hsel'; left).
  apply list_elem_of_filter in Hin' as [Hw' Hin'].
  apply where_username_Some in Hw' as [Hname' Htok']; [|done].
  rewrite Husers in Hin'.
  apply store_refresh_token_elem in Hin' as (row & Hin & Hname & _ & Hcase).
  case_bool_decide as Hid.
  - congruence.
  - subst row'.
    assert (Hrow : row ∈ select_users username (Some rt1) w).
    { apply list_elem_of_filter. split; [|done]. by apply where_username_Some. }
    rewrite Hsel in Hrow. apply list_elem_of_singleton in Hrow. by subst row.
Qed.

(** Two refresh tokens issued in different seconds differ, whoever they
    are for: the issue second is part of the signed payload. *)
Lemma refresh_tokens_of_distinct_seconds (data data' : dict) (now now' : Z) :
  timegm now <> timegm now' ->
  create_refresh_token config data None now
  <> create_refresh_token config data' None now'.
Proof.
  intros Hne Heq. unfold create_refresh_token in Heq. simpl in Heq.
  rewrite !create_token_eq in Heq.
  assert (Hp : dict_update data
                 (issuer_claims "refresh" (JWT_REFRESH_EXPIRATION_SECONDS config) now)
               = dict_update data'
                   (issuer_claims "refresh" (JWT_REFRESH_EXPIRATION_SECONDS config) now'))
    by congruence.
  clear Heq. apply (f_equal (fun d => dict_get d "iat")) in Hp as Heq.
  destruct (issuer_claims_get data "refresh"
              (JWT_REFRESH_EXPIRATION_SECONDS config) now) as (_ & Hiat & _).
  destruct (issuer_claims_get data' "refresh"
              (JWT_REFRESH_EXPIRATION_SECONDS config) now') as (_ & Hiat' & _).
  cbv zeta in Hiat, Hiat'. rewrite Hiat, Hiat' in Heq. congruence.
Qed.

(** The [users] table after a handler has run is the old one, or the old
    one with a freshly minted refresh token stored for one id. *)
Lemma login_user_users (form_data : Form.t) (now_a now_r : Z) (w : World) :
  let w' := snd (login_user config pwd_context_verify form_data now_a now_r w) in
  users w' = users w
  \/ exists uid username,
       users w' = store_refresh_token uid
                    (Some (create_refresh_token config
                             [("sub", JStr username)] None now_r))
                    (users w).
Proof.
  cbv zeta. rewrite login_user_eq. cbv zeta.
  destruct (select_users _ None w) as [|user [|user' rows]]; [by left| |by left].
  destruct (negb (verify_password _ _ _)); [by left|].
  destruct (negb (truthy_bool _)); [by left|].
  right. by exists (User.id user), (User.username user).
Qed.

Lemma verify_refresh_token_users (refresh_token : token) (now : Z) (w : World) :
  users (snd (verify_refresh_token config refresh_token now w)) = users w.
Proof.
  rewrite verify_refresh_token_eq.
  destruct (jwt_decode _ _ _ _); [|done].
  destruct (payload_sub _); [|done]. by destruct (negb _).
Qed.

Lemma new_token_users (presented : token) (now now_a now_r : Z) (w : World) :
  let w' := snd (new_token config presented now now_a now_r w) in
  users w' = users w
  \/ exists uid username,
       users w' = store_refresh_token uid
                    (Some (create_refresh_token config
                             [("sub", JStr username)] None now_r))
                    (users w).
Proof.
  cbv zeta. rewrite new_token_eq.
  pose proof (verify_refresh_token_users presented now w) as Hw1.
  destruct (verify_refresh_token config presented now w) as [[[user|]|e] w1];
    simpl in Hw1; [|by left..].
  right. exists (User.id user), (User.username user). simpl. by rewrite Hw1.
Qed.

Lemma get_current_user_users (bearer : token) (now rnow : Z) (w : World) :
  users (snd (get_current_user config bearer now rnow w)) = users w.
Proof.
  rewrite get_current_user_eq.
  destruct (jwt_decode _ _ _ _); [|done].
  destruct (payload_sub _); [|done]. destruct (negb _); [done|].
  destruct (redis_lookup _ _ _); [done|]. cbv zeta.
  destruct (select_users _ None w) as [|user [|user' rows]]; try done.
  unfold cache_put, redis_expire, redis_set. simpl.
  destruct (redis_lookup _ _ _); [|done]. by destruct (_ <=? 0).
Qed.

Lemma forgotten_store (username : string) (tok new_token : token) (uid : Z)
    (w w' : World) :
  forgotten username tok w -> new_token <> tok ->
  users w' = store_refresh_token uid (Some new_token) (users w) ->
  forgotten username tok w'.
Proof.
  intros Hforgotten Hne Husers row' Hin' Hname'. rewrite Husers in Hin'.
  apply store_refresh_token_elem in Hin' as (row & Hin & Hname & _ & Hcase).
  case_bool_decide.
  - congruence.
  - subst row'. by apply Hforgotten.
Qed.

(** A token stays forgotten while no request mints it again. *)
Lemma forgotten_serve (username : string) (tok : token) (req : Request) (w : World) :
  forgotten username tok w -> ~ mints config req tok ->
  forgotten username tok (serve config pwd_context_verify w req).
Proof.
  intros Hforgotten Hmint.
  assert (Hsame : forall w', users w' = users w -> forgotten username tok w').
  { intros w' Hw' row. rewrite Hw'. apply Hforgotten. }
  destruct req as [form_data now_a now_r|presented now now_a now_r|bearer now rnow];
    simpl in *.
  - destruct (login_user_users form_data now_a now_r w)
      as [Hw'|(uid & name & Hw')]; [by apply Hsame|].
    eapply forgotten_store; [done| |done]. intros Heq. apply Hmint. by exists name.
  - destruct (new_token_users presented now now_a now_r w)
      as [Hw'|(uid & name & Hw')]; [by apply Hsame|].
    eapply forgotten_store; [done| |done]. intros Heq. apply Hmint. by exists name.
  - apply Hsame, get_current_user_users.
Qed.

Lemma forgotten_serve_all (username : string) (tok : token) (reqs : list Request)
    (w : World) :
  forgotten username tok w ->
  (forall req, req ∈ reqs -> ~ mints config req tok) ->
  forgotten username tok (serve_all config pwd_context_verify reqs w).
Proof.
  unfold serve_all. revert w.
  induction reqs as [|req reqs IH]; intros w Hforgotten Hmint; simpl; [done|].
  apply IH.
  - apply forgotten_serve; [done|]. apply Hmint. left.
  - intros req' Hin. apply Hmint. by right.
Qed.

(** Refreshing with a token that its subject's rows have forgotten. *)
Lemma new_token_forgotten (rt1 : token) (payload : dict) (username : string)
    (now now_a now_r : Z) (w : World) :
  jwt_decode rt1 SECRET ALGORITHMS now = Ok payload ->
  payload_sub payload = Some username ->
  payload_token_type payload = Some (JStr "refresh") ->
  forgotten username rt1 w ->
  fst (new_token config rt1 now now_a now_r w)
  = Err (HTTPException HTTP_401_UNAUTHORIZED INVALID_REFRESH_TOKEN).
Proof.
  intros Hdec Hsub Hkind Hforgotten.
  rewrite new_token_eq, verify_refresh_token_eq, Hdec, Hsub, Hkind.
  rewrite bool_decide_true by done. simpl.
  destruct (select_users username (Some rt1) w) as [|row rows] eqn:Hsel; [done|].
  assert (Hin : row ∈ select_users username (Some rt1) w) by (rewrite Hsel; left).
  apply list_elem_of_filter in Hin as [Hw Hin].
  apply where_username_Some in Hw as [Hname Htok].
  - by destruct (Hforgotten row).
  - by apply jwt_decode_ok in Hdec as (alg & -> & _).
Qed.

(** C1 (as amended). If refreshing with [rt1] succeeds and the refresh
    token it returns differs from [rt1], then [rt1] is refused by every
    later refresh, whatever logins, refreshes and resolutions are served in
    between, as long as none of them mints [rt1] anew: with the 401
    invalid-refresh-token error while [rt1] still decodes (not expired, kind
    "refresh"), and with the 401 unverified-credentials error once it does
    not. *)
Theorem superseded_refresh_token_refused (rt1 : token) (now now_a now_r : Z)
    (w w' : World) (response : Token.t) :
  new_token config rt1 now now_a now_r w = (Ok response, w') ->
  Token.refresh_token response <> rt1 ->
  forall (reqs : list Request),
    (forall req, req ∈ reqs -> ~ mints config req rt1) ->
    forall (now' now_a' now_r' : Z),
      fst (new_token config rt1 now' now_a' now_r'
             (serve_all config pwd_context_verify reqs w'))
      = if is_ok (jwt_decode rt1 SECRET ALGORITHMS now')
        then Err (HTTPException HTTP_401_UNAUTHORIZED INVALID_REFRESH_TOKEN)
        else Err credentials_exception.
Proof.
  intros Hrun Hne reqs Hmint now' now_a' now_r'.
  rewrite new_token_eq in Hrun.
  destruct (verify_refresh_token config rt1 now w)
    as [[[user|]|e] w1] eqn:Hverify; [|done..].
  cbv zeta in Hrun. injection Hrun as <- <-. simpl in Hne.
  pose proof (verify_refresh_token_stored rt1 now w user) as Hstored.
  rewrite Hverify in Hstored.
  destruct (Hstored eq_refl) as (Hin & Htok & payload & Hdec & Hsub & Hkind & Hsel).
  pose proof (verify_refresh_token_users rt1 now w) as Hw1.
  rewrite Hverify in Hw1. simpl in Hw1.
  set (rt2 := create_refresh_token config [("sub", JStr (User.username user))]
                None now_r) in *.
  set (w' := snd (db_refresh user (snd (commit_refresh_token user (Some rt2) w1)))).
  assert (Husers : users w' = store_refresh_token (User.id user) (Some rt2) (users w)).
  { unfold w'. simpl. by rewrite Hw1. }
  assert (Hforgotten : forgotten (User.username user) rt1 w').
  { intros row Hrow Hname Hrt1.
    assert (Hnone : select_users (User.username user) (Some rt1) w' = []).
    { eapply select_users_superseded; [|exact Hsel|exact Hne|exact Husers].
      by apply jwt_decode_ok in Hdec as (alg & -> & _). }
    assert (Hrow' : row ∈ select_users (User.username user) (Some rt1) w').
    { apply list_elem_of_filter. split; [|done]. apply where_username_Some; [|done].
      by apply jwt_decode_ok in Hdec as (alg & -> & _). }
    rewrite Hnone in Hrow'. by apply elem_of_nil in Hrow'. }
  destruct (jwt_decode rt1 SECRET ALGORITHMS now') as [payload'|e'] eqn:Hdec'.
  - assert (payload' = payload) as ->.
    { apply jwt_decode_ok in Hdec as (alg & Hjws & _).
      apply jwt_decode_ok in Hdec' as (alg' & Hjws' & _). congruence. }
    simpl. eapply new_token_forgotten; [done..|].
    by apply forgotten_serve_all.
  - simpl. rewrite new_token_eq, verify_refresh_token_eq, Hdec'. done.
Qed.

(** A token that was minted as a refresh token is not minted anew by a
    request that reads the clock in another second. *)
Lemma not_minted_in_another_second (data : dict) (t0 : Z) (req : Request) :
  match req with
  | Login _ _ now_r | Refresh _ _ _ now_r => timegm now_r <> timegm t0
  | Resolve _ _ _ => True
  end ->
  ~ mints config req (create_refresh_token config data None t0).
Proof.
  destruct req as [form_data now_a now_r|presented now now_a now_r|bearer now rnow];
    simpl; [| |tauto].
  all: intros Hne [username Heq];
    by apply (refresh_tokens_of_distinct_seconds _ _ _ _ Hne) in Heq.
Qed.

End Properties.

(** * The properties at the sample deployment *)

Module Examples.

Import Sample.

(** ** Supersession *)

(** C1 as stated fails: a refresh served in the second in which the
    presented token was issued mints the very same token, and the presented
    token, unexpired, is accepted again afterwards. *)
Lemma refresh_in_the_issuing_second_is_repeatable :
  let first := new_token config rt1 t_same_second t_same_second t_same_second
                 (snd logged_in) in
  let second := new_token config rt1 t_later t_later t_later (snd first) in
  is_ok (fst first) = true
  /\ refresh_of (fst first) = rt1
  /\ expired [("sub", JStr "alice"); ("exp", JInt 605800); ("iat", JInt 1000);
              ("token_type", JStr "refresh")] t_later = false
  /\ is_ok (fst second) = true.
Proof. vm_compute. done. Qed.

(** C1 as amended, at the sample: alice refreshes two seconds after her
    login, then resolves and logs in again; her first refresh token is
    refused from then on. *)
Lemma superseded_refresh_token_refused_witness :
  let first := new_token config rt1 t_later t_later t_later (snd logged_in) in
  let history := [Resolve at1 t_later t_later; Login form t_later t_later] in
  let later := serve_all config pwd_context_verify history (snd first) in
  is_ok (fst first) = true
  /\ refresh_of (fst first) <> rt1
  /\ (forall req, req ∈ history -> ~ mints config req rt1)
  /\ fst (new_token config rt1 t_later t_later t_later later)
     = Err (HTTPException HTTP_401_UNAUTHORIZED INVALID_REFRESH_TOKEN)
  /\ fst (new_token config rt1 t_next_week t_next_week t_next_week later)
     = Err credentials_exception.
Proof.
  pose (first := new_token config rt1 t_later t_later t_later (snd logged_in)).
  pose (history := [Resolve at1 t_later t_later; Login form t_later t_later]).
  assert (Hrun : first = (Ok (Token.mk (access_of (fst first))
                                 (refresh_of (fst first)) "bearer"),
                          snd first)) by (vm_compute; done).
  assert (Hne : Token.refresh_token
                  (Token.mk (access_of (fst first)) (refresh_of (fst first)) "bearer")
                <> rt1) by (vm_compute; done).
  assert (Hmint : forall req, req ∈ history -> ~ mints config req rt1).
  { intros req Hreq.
    apply (not_minted_in_another_second config [("sub", JStr "alice")] t_login).
    apply elem_of_cons in Hreq as [->|Hreq]; [done|].
    apply list_elem_of_singleton in Hreq as ->. vm_compute. done. }
  pose proof (superseded_refresh_token_refused config pwd_context_verify rt1
                t_later t_later t_later (snd logged_in) (snd first) _ Hrun Hne
                history Hmint) as Hthm.
  cbv zeta. fold first. fold history. split_and!.
  - vm_compute. done.
  - exact Hne.
  - exact Hmint.
  - exact (Hthm t_later t_later t_later).
  - exact (Hthm t_next_week t_next_week t_next_week).
Defined.

(** ** Resolution *)

(** C2 at the sample: alice's access token resolves, her refresh token
    does not. The first resolution returns her row, which holds the refresh
    token of her login; the second, served from the cache, returns the
    identity rebuilt from the snapshot, with her contact and her group. *)
Lemma get_current_user_iff_witness :
  let cached := snd (get_current_user config at1 t_later t_later (snd logged_in)) in
  unique_usernames (users (snd logged_in))
  /\ (exists payload username,
        jwt_decode at1 secret algorithms t_later = Ok payload
        /\ expired payload t_later = false
        /\ payload_token_type payload = Some (JStr "access")
        /\ dict_get payload "sub" = Some (JStr username)
        /\ (is_Some (redis_lookup (redis (snd logged_in)) username t_later)
            \/ exists user, user ∈ users (snd logged_in)
                            /\ User.username user = username))
  /\ fst (get_current_user config rt1 t_later t_later (snd logged_in))
     = Err credentials_exception
  /\ fst (get_current_user config at1 t_later t_later (snd logged_in))
     = Ok (User.set_refresh_token alice (Some rt1))
  /\ fst (get_current_user config at1 t_later t_later cached)
     = Ok (User.mk 1 "alice" "alice@example.com" None None None None None USER
             (Some [cat]) (Some [friends])).
Proof.
  pose (cached := snd (get_current_user config at1 t_later t_later (snd logged_in))).
  pose (payload := [("sub", JStr "alice"); ("exp", JInt 4600); ("iat", JInt 1000);
                    ("token_type", JStr "access")]).
  assert (Huniq : unique_usernames (users (snd logged_in)))
    by (apply (bool_decide_unpack _); vm_compute; done).
  assert (Huniq' : unique_usernames (users cached))
    by (apply (bool_decide_unpack _); vm_compute; done).
  assert (Hdec : jwt_decode at1 (JWT_SECRET config) [JWT_ALGORITHM config] t_later
                 = Ok payload) by (vm_compute; done).
  cbv zeta. fold cached. split_and!.
  - exact Huniq.
  - apply (proj1 (get_current_user_iff config at1 t_later t_later _ Huniq)).
    vm_compute. done.
  - apply (proj1 (proj2 (get_current_user_iff config rt1 t_later t_later _ Huniq))).
    vm_compute. done.
  - apply (proj1 (proj2 (proj2 (proj2 (get_current_user_iff config at1 t_later
                                         t_later _ Huniq))
                          payload "alice" Hdec eq_refl eq_refl)));
      [by vm_compute|left|done].
  - apply (proj1 (proj2 (proj2 (get_current_user_iff config at1 t_later t_later
                                  cached Huniq'))
                    payload "alice" Hdec eq_refl eq_refl)
             (UserBase.mk 1 "alice" "alice@example.com" None USER)).
    vm_compute. done.
Defined.

(** ** Login *)

(** C3 at the sample: alice, confirmed, logs in. *)
Lemma login_user_spec_witness :
  unique_usernames (users world)
  /\ alice ∈ users world
  /\ verify_password pwd_context_verify (Form.password form)
       (User.hashed_password alice) = true
  /\ User.confirmed alice = Some true
  /\ fst (login_user config pwd_context_verify form t_login t_login world)
     = Ok (Token.mk at1 rt1 "bearer").
Proof.
  assert (Huniq : unique_usernames (users world))
    by (apply (bool_decide_unpack _); vm_compute; done).
  assert (Hin : alice ∈ users world) by left.
  assert (Hpwd : verify_password pwd_context_verify (Form.password form)
                   (User.hashed_password alice) = true) by (vm_compute; done).
  split_and!; [done..|].
  exact (proj1 (proj2 (proj1 (login_user_spec config pwd_context_verify form
                                t_login t_login world Huniq)
                         alice Hin eq_refl Hpwd)) eq_refl).
Defined.

(** ** Kinds *)

(** C4 as stated fails: an access token presented for email confirmation
    is accepted. *)
Lemma confirmation_accepts_an_access_token :
  at1 = JWS "s3cret" "HS256"
          [("sub", JStr "alice"); ("exp", JInt 4600); ("iat", JInt 1000);
           ("token_type", JStr "access")]
  /\ get_email_from_token config at1 t_later = Ok (Some "alice").
Proof. vm_compute. done. Qed.

(** C4 as amended, at the sample: each session token is refused where the
    other kind is expected. *)
Lemma token_kind_at_call_sites_witness :
  jwt_decode rt1 secret algorithms t_later
  = Ok [("sub", JStr "alice"); ("exp", JInt 605800); ("iat", JInt 1000);
        ("token_type", JStr "refresh")]
  /\ get_current_user config rt1 t_later t_later world
     = (Err credentials_exception, world)
  /\ verify_refresh_token config at1 t_later world
     = (Err credentials_exception, world).
Proof.
  assert (Hrt : jwt_decode rt1 secret algorithms t_later
                = Ok [("sub", JStr "alice"); ("exp", JInt 605800);
                      ("iat", JInt 1000); ("token_type", JStr "refresh")])
    by (vm_compute; done).
  assert (Hat : jwt_decode at1 secret algorithms t_later
                = Ok [("sub", JStr "alice"); ("exp", JInt 4600);
                      ("iat", JInt 1000); ("token_type", JStr "access")])
    by (vm_compute; done).
  split_and!.
  - exact Hrt.
  - apply (proj1 (token_kind_at_call_sites config rt1 t_later _ Hrt)).
    vm_compute. done.
  - apply (proj1 (proj2 (token_kind_at_call_sites config at1 t_later _ Hat))).
    vm_compute. done.
Defined.

(** C10 as stated fails: an email token issued for data that names the
    kind "access" resolves to an identity. *)
Lemma email_token_with_a_kind_resolves :
  fst (get_current_user config
         (create_email_token config
            [("sub", JStr "alice"); ("token_type", JStr "access")]
            t_login t_login)
         t_later t_later world)
  = Ok alice.
Proof. vm_compute. done. Qed.

(** C10 as amended, at the sample: the token issued for an email alone is
    no session token. *)
Lemma email_token_refused_as_session_token_witness :
  let data := [("sub", JStr "alice@example.com")] in
  dict_get data "token_type" = None
  /\ get_current_user config (create_email_token config data t_login t_login)
       t_later t_later world = (Err credentials_exception, world)
  /\ verify_refresh_token config (create_email_token config data t_login t_login)
       t_later world = (Err credentials_exception, world).
Proof.
  cbv zeta. split_and!.
  - done.
  - by apply (proj1 (email_token_refused_as_session_token config
                       [("sub", JStr "alice@example.com")] t_login t_login t_later)).
  - by apply (proj2 (email_token_refused_as_session_token config
                       [("sub", JStr "alice@example.com")] t_login t_login t_later)).
Defined.

(** ** Round trip *)

(** C7 as stated fails: decoding returns more than the data that was
    encoded. *)
Lemma decoding_returns_the_issuer_claims_too :
  t_later <= t_login + timedelta_seconds 3600
  /\ jwt_decode (create_token config [("sub", JStr "alice")] "access" 3600 t_login)
       secret algorithms t_later
     = Ok [("sub", JStr "alice"); ("exp", JInt 4600); ("iat", JInt 1000);
           ("token_type", JStr "access")]
  /\ jwt_decode (create_token config [("sub", JStr "alice")] "access" 3600 t_login)
       secret algorithms t_later
     <> Ok [("sub", JStr "alice")].
Proof. vm_compute. split_and!; done. Qed.

(** C7 as amended, at the sample. *)
Lemma create_token_decode_witness :
  t_later <= t_login + timedelta_seconds 3600
  /\ registered_claims_ok [("sub", JStr "alice")] t_later
  /\ jwt_decode (create_token config [("sub", JStr "alice")] "access" 3600 t_login)
       secret algorithms t_later
     = Ok (dict_update [("sub", JStr "alice")] (issuer_claims "access" 3600 t_login)).
Proof.
  assert (Hle : t_later <= t_login + timedelta_seconds 3600) by (vm_compute; done).
  assert (Hreg : registered_claims_ok [("sub", JStr "alice")] t_later)
    by (vm_compute; done).
  split_and!; [done..|].
  exact (proj1 (create_token_decode config [("sub", JStr "alice")] "access" 3600
                  t_login t_later Hle Hreg)).
Defined.

(** C8 as stated fails: an email token carries no kind, an access token
    does. *)
Lemma email_token_carries_no_kind :
  jwt_decode (create_email_token config [("sub", JStr "alice@example.com")]
                t_login t_login) secret algorithms t_later
  = Ok [("sub", JStr "alice@example.com"); ("iat", JInt 1000);
        ("exp", JInt 605800)]
  /\ payload_token_type [("sub", JStr "alice@example.com"); ("iat", JInt 1000);
                         ("exp", JInt 605800)] = None
  /\ jwt_decode at1 secret algorithms t_later
     = Ok [("sub", JStr "alice"); ("exp", JInt 4600); ("iat", JInt 1000);
           ("token_type", JStr "access")].
Proof. vm_compute. done. Qed.

(** ** Administrator check *)

(** C9 at the sample: bob is an administrator, alice is not. *)
Lemma get_current_admin_user_spec_witness :
  User.role bob = ADMIN /\ get_current_admin_user bob = Ok bob
  /\ User.role alice = USER
  /\ get_current_admin_user alice
     = Err (HTTPException HTTP_403_FORBIDDEN INSUFFICIENT_PERMISSIONS).
Proof.
  split_and!; [done| |done|].
  - exact (proj1 (get_current_admin_user_spec bob) eq_refl).
  - exact (proj2 (proj2 (get_current_admin_user_spec alice)) eq_refl).
Defined.

(** ** Cache *)

(** C5 as stated fails: the second resolution, served from the cache,
    executes two statements on the store and loads both relations. *)
Lemma cache_hit_queries_the_store :
  let first := get_current_user config at1 t_later t_later (snd logged_in) in
  let second := get_current_user config at1 t_later t_later (snd first) in
  is_ok (fst first) = true
  /\ redis_lookup (redis (snd first)) "alice" t_later
     = Some (UserBase.mk 1 "alice" "alice@example.com" None USER)
  /\ fst second
     = Ok (User.mk 1 "alice" "alice@example.com" None None None None None USER
             (Some [cat]) (Some [friends]))
  /\ executed (snd second)
     = (executed (snd first) ++ [SelectContact 1; SelectGroup 1])%list.
Proof. vm_compute. done. Qed.

(** C5 as amended, at the sample: a resolution thirty seconds after the
    one that filled the cache. *)
Lemma cache_population_then_hit_witness :
  let first := get_current_user config at1 t_later t_later (snd logged_in) in
  let second := get_current_user config at1 (t_later + 30000000)
                  (t_later + 30000000) (snd first) in
  0 < REDIS_EXPIRATION_TIME config
  /\ redis_lookup (redis (snd logged_in)) "alice" t_later = None
  /\ is_ok (fst first) = true
  /\ redis (snd first) !! "alice"
     = Some (UserBase.mk 1 "alice" "alice@example.com" None USER,
             Some (t_later + timedelta_seconds 60))
  /\ fst second
     = Ok (User.mk 1 "alice" "alice@example.com" None None None None None USER
             (Some [cat]) (Some [friends]))
  /\ executed (snd second)
     = (executed (snd first) ++ [SelectContact 1; SelectGroup 1])%list.
Proof.
  pose (payload := [("sub", JStr "alice"); ("exp", JInt 4600); ("iat", JInt 1000);
                    ("token_type", JStr "access")]).
  pose (user := User.set_refresh_token alice (Some rt1)).
  pose (first := get_current_user config at1 t_later t_later (snd logged_in)).
  assert (Httl : 0 < REDIS_EXPIRATION_TIME config) by (vm_compute; done).
  assert (Hdec : jwt_decode at1 (JWT_SECRET config) [JWT_ALGORITHM config] t_later
                 = Ok payload) by (vm_compute; done).
  assert (Hdec2 : jwt_decode at1 (JWT_SECRET config) [JWT_ALGORITHM config]
                    (t_later + 30000000) = Ok payload) by (vm_compute; done).
  assert (Hmiss : redis_lookup (redis (snd logged_in)) "alice" t_later = None)
    by (vm_compute; done).
  assert (Hrun : first = (Ok user, snd first)) by (vm_compute; done).
  assert (Hnow : t_later + 30000000
                 < t_later + timedelta_seconds (REDIS_EXPIRATION_TIME config))
    by (vm_compute; done).
  pose proof (cache_population_then_hit config at1 payload "alice" t_later t_later
                (snd logged_in) (snd first) user Httl Hdec eq_refl Hmiss Hrun)
    as (_ & _ & Hentry & Hhit).
  destruct (Hhit at1 payload (t_later + 30000000) (t_later + 30000000) (snd first)
              Hdec2 eq_refl eq_refl eq_refl Hnow) as (Hres & Hlog & _).
  cbv zeta. fold first. split_and!.
  - exact Httl.
  - exact Hmiss.
  - vm_compute. done.
  - exact Hentry.
  - exact Hres.
  - exact Hlog.
Defined.

(** ** The stored refresh token *)

(** C6 at the sample: alice's login stores the token it returns. *)
Lemma one_refresh_token_per_identity_witness :
  unique_usernames (users world)
  /\ fst logged_in = Ok (Token.mk at1 rt1 "bearer")
  /\ rotated "alice" rt1 world (snd logged_in).
Proof.
  assert (Huniq : unique_usernames (users world))
    by (apply (bool_decide_unpack _); vm_compute; done).
  assert (Hrun : login_user config pwd_context_verify form t_login t_login world
                 = (Ok (Token.mk at1 rt1 "bearer"), snd logged_in))
    by (vm_compute; done).
  split_and!.
  - exact Huniq.
  - vm_compute. done.
  - exact (proj2 (proj1 (proj2 (one_refresh_token_per_identity config
                                  pwd_context_verify world Huniq))
                    form t_login t_login _ _ Hrun)).
Defined.

End Examples.

(** * Further properties of the session code *)

Section FurtherProperties.

Variable config : Config.
Variable pwd_context_verify : string -> option string -> bool.

Abbreviation SECRET' := (JWT_SECRET config).
Abbreviation ALGORITHMS' := [JWT_ALGORITHM config].

(** ** Lifetimes *)

Lemma create_access_token_lifetime (data : dict) (expires_delta : option Z) (now : Z) :
  create_access_token config data expires_delta now
  = create_token config data "access"
      (lifetime (JWT_EXPIRATION_SECONDS config) expires_delta) now.
Proof.
  unfold create_access_token, lifetime. by destruct (given expires_delta).
Qed.

Lemma create_refresh_token_lifetime (data : dict) (expires_delta : option Z) (now : Z) :
  create_refresh_token config data expires_delta now
  = create_token config data "refresh"
      (lifetime (JWT_REFRESH_EXPIRATION_SECONDS config) expires_delta) now.
Proof.
  unfold create_refresh_token, lifetime. by destruct (given expires_delta).
Qed.

(** Past the second of expiry no token of [create_token] decodes. *)
Lemma create_token_expired (data : dict) (token_type : string)
    (expires_delta now now' : Z) :
  timegm now + expires_delta < timegm now' ->
  exists e, jwt_decode (create_token config data token_type expires_delta now)
              SECRET' ALGORITHMS' now' = Err e.
Proof.
  intros Hlate.
  destruct (jwt_decode _ _ _ _) as [payload|e] eqn:Hdec; [|by exists e].
  exfalso. apply jwt_decode_ok in Hdec as (alg & Heq & _ & Hv).
  rewrite create_token_eq in Heq.
  assert (payload = dict_update data (issuer_claims token_type expires_delta now))
    as -> by congruence.
  apply validate_claims_not_expired in Hv. unfold expired in Hv.
  destruct (issuer_claims_get data token_type expires_delta now) as (Hexp & _).
  cbv zeta in Hexp. rewrite Hexp in Hv.
  by destruct (Z.ltb_spec (timegm now + expires_delta) (timegm now')); [|lia].
Qed.

(** X1. A session token presented after the second in which its lifetime
    ends is refused with the 401 unverified-credentials error, and the
    request leaves the world as it was: an access token at resolution, a
    refresh token at the refresh endpoint (which does not answer with its
    invalid-refresh-token error then). The lifetime is the configured one
    when the issuer is given none, or zero. *)
Theorem expired_session_token_refused (data : dict) (expires_delta : option Z)
    (now now' : Z) (w : World) :
  (timegm now + lifetime (JWT_EXPIRATION_SECONDS config) expires_delta < timegm now' ->
   forall rnow,
     get_current_user config (create_access_token config data expires_delta now)
       now' rnow w
     = (Err credentials_exception, w))
  /\ (timegm now + lifetime (JWT_REFRESH_EXPIRATION_SECONDS config) expires_delta
      < timegm now' ->
      forall now_a now_r,
        new_token config (create_refresh_token config data expires_delta now)
          now' now_a now_r w
        = (Err credentials_exception, w)).
Proof.
  split; intros Hlate.
  - intros rnow. rewrite create_access_token_lifetime.
    destruct (create_token_expired data "access" _ now now' Hlate) as [e He].
    by eapply get_current_user_undecodable.
  - intros now_a now_r. rewrite create_refresh_token_lifetime.
    destruct (create_token_expired data "refresh" _ now now' Hlate) as [e He].
    rewrite new_token_eq.
    by rewrite (verify_refresh_token_undecodable config _ _ e w He).
Qed.

(** ** Tokens that the server did not sign *)

Lemma jwt_decode_foreign (t : token) (now : Z) :
  (forall payload, t <> JWS SECRET' (JWT_ALGORITHM config) payload) ->
  exists e, jwt_decode t SECRET' ALGORITHMS' now = Err e.
Proof.
  intros Hforeign.
  destruct (jwt_decode _ _ _ _) as [payload|e] eqn:Hdec; [|by exists e].
  apply jwt_decode_ok in Hdec as (alg & -> & Halg & _).
  apply list_elem_of_singleton in Halg as ->. by destruct (Hforeign payload).
Qed.

(** X2. A token that is not a payload signed with the configured secret
    under the configured algorithm is accepted nowhere: resolution and the
    refresh endpoint answer 401, the consumption of a confirmation token
    and the confirmation endpoint answer 422, and none of them changes the
    world. *)
Theorem foreign_token_accepted_nowhere (t : token) (now : Z) (w : World) :
  (forall payload, t <> JWS SECRET' (JWT_ALGORITHM config) payload) ->
  (forall rnow, get_current_user config t now rnow w = (Err credentials_exception, w))
  /\ (forall now_a now_r,
         new_token config t now now_a now_r w = (Err credentials_exception, w))
  /\ get_email_from_token config t now
     = Err (HTTPException HTTP_422_UNPROCESSABLE_ENTITY UNEXISTING_TOKEN)
  /\ confirm_email config t now w
     = (Err (Known (HTTPException HTTP_422_UNPROCESSABLE_ENTITY UNEXISTING_TOKEN)), w).
Proof.
  intros Hforeign. destruct (jwt_decode_foreign t now Hforeign) as [e He].
  assert (Hmail : get_email_from_token config t now
                  = Err (HTTPException HTTP_422_UNPROCESSABLE_ENTITY UNEXISTING_TOKEN))
    by (unfold get_email_from_token; by rewrite He).
  split_and!.
  - intros rnow. by eapply get_current_user_undecodable.
  - intros now_a now_r. rewrite new_token_eq.
    by rewrite (verify_refresh_token_undecodable config _ _ e w He).
  - done.
  - unfold confirm_email, bindX. by rewrite Hmail.
Qed.

(** ** From login to the use of the tokens *)

(** A token that [create_token] issues for a subject alone decodes, up to
    the end of its lifetime, to that subject and its kind. *)
Lemma subject_token_decodes (username token_type : string)
    (expires_delta now now' : Z) :
  now' <= now + timedelta_seconds expires_delta ->
  exists payload,
    jwt_decode (create_token config [("sub", JStr username)] token_type
                  expires_delta now) SECRET' ALGORITHMS' now' = Ok payload
    /\ payload_sub payload = Some username
    /\ payload_token_type payload = Some (JStr token_type).
Proof.
  intros Hle.
  set (data := [("sub", JStr username)]).
  exists (dict_update data (issuer_claims token_type expires_delta now)).
  destruct (issuer_claims_get data token_type expires_delta now)
    as (_ & _ & Hkind & Hother).
  split_and!.
  - rewrite create_token_eq. apply jwt_decode_ok.
    exists (JWT_ALGORITHM config). split_and!; [done|left|].
    apply create_token_validate.
    + rewrite <- timegm_add_seconds. by apply timegm_mono.
    + by repeat split.
  - unfold payload_sub. rewrite Hother; [done|].
    rewrite !not_elem_of_cons. split_and!; try done. apply not_elem_of_nil.
  - done.
Qed.

(** What a successful login did. *)
Lemma login_user_ok (form_data : Form.t) (now_a now_r : Z) (w w' : World)
    (response : Token.t) :
  login_user config pwd_context_verify form_data now_a now_r w = (Ok response, w') ->
  exists user,
    select_users (Form.username form_data) None w = [user]
    /\ user ∈ users w
    /\ User.username user = Form.username form_data
    /\ response
       = Token.mk
           (create_access_token config [("sub", JStr (User.username user))] None now_a)
           (create_refresh_token config [("sub", JStr (User.username user))] None now_r)
           "bearer"
    /\ users w' = store_refresh_token (User.id user)
                    (Some (Token.refresh_token response)) (users w)
    /\ redis w' = redis w.
Proof.
  rewrite login_user_eq. cbv zeta.
  destruct (select_users _ None w) as [|user [|user' rows]] eqn:Hsel; try done.
  destruct (negb (verify_password _ _ _)); [done|].
  destruct (negb (truthy_bool _)); [done|].
  intros [= <- <-]. exists user.
  assert (Hin : user ∈ select_users (Form.username form_data) None w)
    by (rewrite Hsel; left).
  apply list_elem_of_filter in Hin as [Hname%where_username_None Hin].
  split_and!; done.
Qed.

(** What a successful refresh did. *)
Lemma new_token_ok (presented : token) (now now_a now_r : Z) (w w' : World)
    (response : Token.t) :
  new_token config presented now now_a now_r w = (Ok response, w') ->
  exists user,
    fst (verify_refresh_token config presented now w) = Ok (Some user)
    /\ user ∈ users w
    /\ response
       = Token.mk
           (create_access_token config [("sub", JStr (User.username user))] None now_a)
           (create_refresh_token config [("sub", JStr (User.username user))] None now_r)
           "bearer"
    /\ users w' = store_refresh_token (User.id user)
                    (Some (Token.refresh_token response)) (users w)
    /\ redis w' = redis w.
Proof.
  rewrite new_token_eq.
  pose proof (verify_refresh_token_users config presented now w) as Hw1.
  destruct (verify_refresh_token config presented now w)
    as [[[user|]|e] w1] eqn:Hverify; [|done..].
  cbv zeta. intros [= <- <-]. exists user.
  pose proof (verify_refresh_token_stored config presented now w user) as Hstored.
  rewrite Hverify in Hstored. destruct (Hstored eq_refl) as (Hin & _).
  simpl in Hw1. split_and!; try done.
  - simpl. by rewrite Hw1.
  - simpl. rewrite verify_refresh_token_eq in Hverify.
    destruct (jwt_decode _ _ _ _); [|by injection Hverify as _ <-].
    destruct (payload_sub _); [|by injection Hverify as _ <-].
    destruct (negb _); by injection Hverify as _ <-.
Qed.

(** After the token of a user has been stored, the user's username selects
    the one row that holds it, with or without the token in the statement. *)
Lemma select_users_after_store (user : User.t) (tok : token) (w w' : World) :
  unique_usernames (users w) -> user ∈ users w ->
  users w' = store_refresh_token (User.id user) (Some tok) (users w) ->
  select_users (User.username user) None w' = [User.set_refresh_token user (Some tok)]
  /\ (token_truthy tok = true ->
      select_users (User.username user) (Some tok) w'
      = [User.set_refresh_token user (Some tok)]).
Proof.
  intros Huniq Hin Husers.
  assert (Huniq' : unique_usernames (users w')).
  { unfold unique_usernames. by rewrite Husers, store_refresh_token_usernames. }
  assert (Hin' : User.set_refresh_token user (Some tok) ∈ users w').
  { rewrite Husers. unfold store_refresh_token.
    eapply list_elem_of_fmap_2'; [done|]. by rewrite bool_decide_true. }
  destruct (select_users_unique (User.username user) w' Huniq')
    as [[_ Hnone]|(u & Hsel & _ & _ & Hone)].
  { by destruct (Hnone _ Hin'). }
  rewrite <- (Hone _ Hin' eq_refl) in Hsel. split; [done|].
  intros Htruthy.
  assert (Hfilter : select_users (User.username user) (Some tok) w'
                    = filter (fun u => User.refresh_token u = Some tok)
                        (select_users (User.username user) None w')).
  { unfold select_users. rewrite list_filter_filter. apply list_filter_iff.
    intros row. rewrite where_username_Some by done. rewrite where_username_None.
    split; intros [? ?]; by split. }
  rewrite Hfilter, Hsel. by rewrite filter_cons_True, filter_nil.
Qed.

Lemma create_refresh_token_truthy (data : dict) (expires_delta : option Z) (now : Z) :
  token_truthy (create_refresh_token config data expires_delta now) = true.
Proof. by rewrite create_refresh_token_lifetime. Qed.

(** X3. With unique usernames, the access token that a successful login
    returns resolves, at every instant up to the configured lifetime after
    its issue, to the identity that logged in: to the user's row, which now
    holds the refresh token just returned, or to the cached snapshot when
    the cache has a live entry for the username. *)
Theorem login_then_resolve (form_data : Form.t) (now_a now_r : Z) (w w' : World)
    (response : Token.t) :
  unique_usernames (users w) ->
  login_user config pwd_context_verify form_data now_a now_r w = (Ok response, w') ->
  exists user,
    user ∈ users w /\ User.username user = Form.username form_data
    /\ forall now' rnow,
         now' <= now_a + timedelta_seconds (JWT_EXPIRATION_SECONDS config) ->
         fst (get_current_user config (Token.access_token response) now' rnow w')
         = match redis_lookup (redis w) (User.username user) rnow with
           | Some snapshot =>
               Ok (User_of_cache snapshot
                     (contacts_of w' (UserBase.id snapshot))
                     (groups_of w' (UserBase.id snapshot)))
           | None =>
               Ok (User.set_refresh_token user (Some (Token.refresh_token response)))
           end.
Proof.
  intros Huniq (user & _ & Hin & Hname & -> & Husers & Hredis)%login_user_ok.
  exists user. split_and!; [done..|]. intros now' rnow Hle.
  cbn [Token.access_token Token.refresh_token] in *.
  destruct (subject_token_decodes (User.username user) "access"
              (JWT_EXPIRATION_SECONDS config) now_a now' Hle)
    as (payload & Hdec & Hsub & Hkind).
  rewrite get_current_user_eq, create_access_token_lifetime.
  change (lifetime (JWT_EXPIRATION_SECONDS config) None)
    with (JWT_EXPIRATION_SECONDS config).
  rewrite Hdec, Hsub, Hkind.
  rewrite bool_decide_true by done. simpl. rewrite Hredis.
  destruct (redis_lookup _ _ _); [done|]. cbv zeta.
  destruct (select_users_after_store user _ w w' Huniq Hin Husers) as [-> _].
  done.
Qed.

(** X4. With unique usernames, the refresh token that a successful login or
    a successful refresh returns is accepted by the refresh endpoint at
    every instant up to the configured refresh lifetime after its issue,
    and the answer is a new pair of tokens for the same subject. *)
Theorem returned_refresh_token_accepted (w w' : World) (response : Token.t)
    (username : string) (now_r : Z) :
  unique_usernames (users w) ->
  ((exists form_data now_a,
       Form.username form_data = username
       /\ login_user config pwd_context_verify form_data now_a now_r w
          = (Ok response, w'))
   \/ (exists presented now now_a,
          refresh_claims config presented now = Some username
          /\ new_token config presented now now_a now_r w = (Ok response, w'))) ->
  forall now' now_a' now_r',
    now' <= now_r + timedelta_seconds (JWT_REFRESH_EXPIRATION_SECONDS config) ->
    fst (new_token config (Token.refresh_token response) now' now_a' now_r' w')
    = Ok (Token.mk
            (create_access_token config [("sub", JStr username)] None now_a')
            (create_refresh_token config [("sub", JStr username)] None now_r')
            "bearer").
Proof.
  intros Huniq Hevent.
  assert (exists user,
             user ∈ users w /\ User.username user = username
             /\ Token.refresh_token response
                = create_refresh_token config [("sub", JStr username)] None now_r
             /\ users w' = store_refresh_token (User.id user)
                             (Some (Token.refresh_token response)) (users w))
    as (user & Hin & Hname & Hrt & Husers).
  { destruct Hevent as [(form_data & now_a & Hform & Hrun)
                       |(presented & now & now_a & Hclaims & Hrun)].
    - apply login_user_ok in Hrun as (user & _ & Hin & Hname & -> & Husers & _).
      exists user. cbn [Token.refresh_token] in *.
      split_and!; try done; congruence.
    - apply new_token_ok in Hrun as (user & Hverify & Hin & -> & Husers & _).
      apply verify_refresh_token_stored in Hverify
        as (_ & _ & payload & Hdec & Hsub & Hkind & _).
      unfold refresh_claims in Hclaims. rewrite Hdec, Hkind, Hsub in Hclaims.
      rewrite bool_decide_true in Hclaims by done. injection Hclaims as Hname.
      exists user. cbn [Token.refresh_token] in *.
      split_and!; try done; congruence. }
  intros now' now_a' now_r' Hle.
  destruct (subject_token_decodes username "refresh"
              (JWT_REFRESH_EXPIRATION_SECONDS config) now_r now' Hle)
    as (payload & Hdec & Hsub & Hkind).
  rewrite Hrt in Husers |- *. subst username.
  destruct (select_users_after_store user _ w w' Huniq Hin Husers) as [_ Hsel].
  specialize (Hsel (create_refresh_token_truthy _ _ _)).
  rewrite new_token_eq, verify_refresh_token_eq.
  rewrite create_refresh_token_lifetime in *.
  change (lifetime (JWT_REFRESH_EXPIRATION_SECONDS config) None)
    with (JWT_REFRESH_EXPIRATION_SECONDS config) in *.
  rewrite Hdec, Hsub, Hkind.
  rewrite bool_decide_true by done. cbn [negb]. by rewrite Hsel.
Qed.

(** ** One identity's rotation and the other identities *)

Lemma NoDup_fmap_eq {A B} (f : A -> B) (l : list A) (x y : A) :
  NoDup (f <$> l) -> x ∈ l -> y ∈ l -> f x = f y -> x = y.
Proof.
  induction l as [|a l IH]; intros Hnd Hx Hy Heq.
  { by apply elem_of_nil in Hx. }
  rewrite fmap_cons in Hnd. apply NoDup_cons in Hnd as [Hfresh Hnd].
  apply elem_of_cons in Hx as [->|Hx]; apply elem_of_cons in Hy as [->|Hy].
  - done.
  - destruct Hfresh. rewrite Heq. by apply list_elem_of_fmap_2.
  - destruct Hfresh. rewrite <- Heq. by apply list_elem_of_fmap_2.
  - by apply IH.
Qed.

(** A statement on another username selects the same rows before and after
    a token has been stored for a user. *)
Lemma select_users_other_username (user : User.t) (tok : option token)
    (username : string) (refresh_token : option token) (w w' : World) :
  unique_ids (users w) -> user ∈ users w ->
  users w' = store_refresh_token (User.id user) tok (users w) ->
  username <> User.username user ->
  select_users username refresh_token w' = select_users username refresh_token w.
Proof.
  intros Hids Hin Husers Hne. unfold select_users. rewrite Husers.
  assert (Hsame : forall row, row ∈ users w -> User.id row = User.id user -> row = user).
  { intros row Hrow Hid. by eapply (NoDup_fmap_eq User.id). }
  clear Husers Hids Hin. unfold store_refresh_token.
  induction (users w) as [|row us IH]; [done|].
  rewrite fmap_cons.
  assert (Hrest : forall row, row ∈ us -> User.id row = User.id user -> row = user)
    by (intros r Hr; apply Hsame; by right).
  case_bool_decide as Hid.
  - assert (row = user) as -> by (apply Hsame; [left|done]).
    assert (Hno : forall u, User.username u = User.username user ->
                            ~ where_username username refresh_token u = true).
    { intros u Hu. unfold where_username.
      destruct (String.eqb_spec (User.username u) username); [congruence|done]. }
    rewrite !filter_cons_False by by apply Hno. by apply IH.
  - rewrite !filter_cons. destruct (decide _); by rewrite IH.
Qed.

(** The relations and the cache are out of reach of login and refresh. *)
Lemma login_user_frame (form_data : Form.t) (now_a now_r : Z) (w : World) :
  let w' := snd (login_user config pwd_context_verify form_data now_a now_r w) in
  contact w' = contact w /\ group w' = group w /\ redis w' = redis w.
Proof.
  cbv zeta. rewrite login_user_eq. cbv zeta.
  destruct (select_users _ None w) as [|user [|user' rows]]; try done.
  destruct (negb (verify_password _ _ _)); [done|].
  by destruct (negb (truthy_bool _)).
Qed.

Lemma new_token_frame (presented : token) (now now_a now_r : Z) (w : World) :
  let w' := snd (new_token config presented now now_a now_r w) in
  contact w' = contact w /\ group w' = group w /\ redis w' = redis w.
Proof.
  cbv zeta. rewrite new_token_eq, verify_refresh_token_eq.
  destruct (jwt_decode _ _ _ _); [|done].
  destruct (payload_sub _); [|done]. destruct (negb _); [done|].
  by destruct (select_users _ _ w) as [|user [|user' rows]].
Qed.

(** X5. With unique ids, a successful login or refresh of one identity
    leaves the rows of every other username as they were; hence a refresh
    token or an access token of another subject is answered after it as
    before it. *)
Theorem rotation_leaves_other_identities (w w' : World) (response : Token.t)
    (username : string) :
  unique_ids (users w) ->
  ((exists form_data now_a now_r,
       Form.username form_data = username
       /\ login_user config pwd_context_verify form_data now_a now_r w
          = (Ok response, w'))
   \/ (exists presented now now_a now_r,
          refresh_claims config presented now = Some username
          /\ new_token config presented now now_a now_r w = (Ok response, w'))) ->
  (forall other refresh_token,
      other <> username ->
      select_users other refresh_token w' = select_users other refresh_token w)
  /\ (forall t now,
         refresh_claims config t now <> Some username ->
         fst (verify_refresh_token config t now w')
         = fst (verify_refresh_token config t now w))
  /\ (forall t now rnow payload,
         jwt_decode t SECRET' ALGORITHMS' now = Ok payload ->
         payload_sub payload <> Some username ->
         fst (get_current_user config t now rnow w')
         = fst (get_current_user config t now rnow w)).
Proof.
  intros Hids Hevent.
  assert (exists user tok,
             user ∈ users w /\ User.username user = username
             /\ users w' = store_refresh_token (User.id user) tok (users w)
             /\ contact w' = contact w /\ group w' = group w /\ redis w' = redis w)
    as (user & tok & Hin & Hname & Husers & Hcontact & Hgroup & Hredis).
  { destruct Hevent as [(form_data & now_a & now_r & Hform & Hrun)
                       |(presented & now & now_a & now_r & Hclaims & Hrun)].
    - pose proof (login_user_frame form_data now_a now_r w) as Hframe.
      rewrite Hrun in Hframe. destruct Hframe as (? & ? & ?).
      apply login_user_ok in Hrun as (user & _ & Hin & Hname & _ & Husers & _).
      exists user, (Some (Token.refresh_token response)).
      split_and!; try done; congruence.
    - pose proof (new_token_frame presented now now_a now_r w) as Hframe.
      rewrite Hrun in Hframe. destruct Hframe as (? & ? & ?).
      apply new_token_ok in Hrun as (user & Hverify & Hin & _ & Husers & _).
      apply verify_refresh_token_stored in Hverify
        as (_ & _ & payload & Hdec & Hsub & Hkind & _).
      unfold refresh_claims in Hclaims. rewrite Hdec, Hkind, Hsub in Hclaims.
      rewrite bool_decide_true in Hclaims by done. injection Hclaims as Hname.
      exists user, (Some (Token.refresh_token response)). split_and!; done. }
  assert (Hselect : forall other refresh_token,
             other <> username ->
             select_users other refresh_token w' = select_users other refresh_token w).
  { intros other refresh_token Hother.
    eapply select_users_other_username; [done..|congruence]. }
  split_and!; [done| |].
  - intros t now Hclaims. rewrite !verify_refresh_token_eq.
    unfold refresh_claims in Hclaims.
    destruct (jwt_decode _ _ _ _) as [payload|e]; [|done].
    destruct (payload_sub payload) as [other|] eqn:Hsub; [|done].
    case_bool_decide as Hkind; [|done]. cbn [negb].
    rewrite Hselect; [done|congruence].
  - intros t now rnow payload Hdec Hsub. rewrite !get_current_user_eq, Hdec.
    destruct (payload_sub payload) as [other|]; [|done].
    destruct (negb _); [done|]. rewrite Hredis.
    unfold contacts_of, groups_of. rewrite Hcontact, Hgroup.
    destruct (redis_lookup _ _ _); [done|]. cbv zeta.
    rewrite Hselect by congruence.
    by destruct (select_users other None w) as [|row [|row' rows]].
Qed.

(** ** The answers of the refresh endpoint *)

(** X6. With unique usernames, the refresh endpoint answers 401
    unverified-credentials when the presented token does not decode to a
    subject with kind "refresh"; when it does, the endpoint succeeds, with a
    new pair of tokens for the subject, if the subject's row stores exactly
    the presented token, and answers 401 invalid-refresh-token if the
    subject has no row or the row stores something else. *)
Theorem new_token_outcomes (presented : token) (now now_a now_r : Z) (w : World) :
  unique_usernames (users w) ->
  let r := fst (new_token config presented now now_a now_r w) in
  match refresh_claims config presented now with
  | None => r = Err credentials_exception
  | Some username =>
      (forall user,
          user ∈ users w -> User.username user = username ->
          User.refresh_token user = Some presented ->
          r = Ok (Token.mk
                    (create_access_token config [("sub", JStr username)] None now_a)
                    (create_refresh_token config [("sub", JStr username)] None now_r)
                    "bearer"))
      /\ ((forall user,
              user ∈ users w -> User.username user = username ->
              User.refresh_token user <> Some presented) ->
          r = Err (HTTPException HTTP_401_UNAUTHORIZED INVALID_REFRESH_TOKEN))
  end.
Proof.
  intros Huniq. cbv zeta. rewrite new_token_eq, verify_refresh_token_eq.
  unfold refresh_claims.
  destruct (jwt_decode _ _ _ _) as [payload|e] eqn:Hdec; [|done].
  assert (Htruthy : token_truthy presented = true)
    by by apply jwt_decode_ok in Hdec as (alg & -> & _).
  case_bool_decide as Hkind.
  2:{ by destruct (payload_sub payload). }
  destruct (payload_sub payload) as [username|]; [|done]. cbn [negb].
  assert (Hfilter : select_users username (Some presented) w
                    = filter (fun u => User.refresh_token u = Some presented)
                        (select_users username None w)).
  { unfold select_users. rewrite list_filter_filter. apply list_filter_iff.
    intros row. rewrite where_username_Some by done. rewrite where_username_None.
    split; intros [? ?]; by split. }
  rewrite Hfilter.
  destruct (select_users_unique username w Huniq)
    as [[-> Hnone]|(u & -> & Hin & Hname & Hone)].
  - rewrite filter_nil. split; [|done].
    intros user Huser Heq. by destruct (Hnone user).
  - split.
    + intros user Huser Heq Htok. rewrite (Hone user Huser Heq) in Htok.
      rewrite filter_cons_True, filter_nil by done. by rewrite Hname.
    + intros Hother. by rewrite filter_cons_False, filter_nil by by apply Hother.
Qed.

(** ** What resolution touches *)

Lemma cache_put_frame (username : string) (user : User.t) (rnow : Z) (w : World) :
  let w' := cache_put config username user rnow w in
  users w' = users w /\ contact w' = contact w /\ group w' = group w
  /\ forall key, key <> username -> redis w' !! key = redis w !! key.
Proof.
  unfold cache_put, redis_expire, redis_set. simpl.
  rewrite redis_lookup_insert. simpl.
  destruct (REDIS_EXPIRATION_TIME config <=? 0); simpl; split_and!; try done.
  - intros key Hkey. by rewrite lookup_delete_ne, lookup_insert_ne.
  - intros key Hkey. by rewrite !lookup_insert_ne.
Qed.

(** X7. [get_current_user] never changes the tables, and the only cache
    entry it can change is that of the subject of a token that it resolved
    from the [users] table for want of a live entry. So a refused token
    leaves the cache as it was (an unknown subject is not remembered), and
    a cache hit does not renew the timeout of the entry it used. *)
Theorem get_current_user_effects (t : token) (now rnow : Z) (w : World) :
  let r := get_current_user config t now rnow w in
  users (snd r) = users w /\ contact (snd r) = contact w /\ group (snd r) = group w
  /\ (forall key,
         redis (snd r) !! key <> redis w !! key ->
         exists payload user,
           jwt_decode t SECRET' ALGORITHMS' now = Ok payload
           /\ payload_sub payload = Some key
           /\ redis_lookup (redis w) key rnow = None
           /\ fst r = Ok user /\ user ∈ users w)
  /\ (is_ok (fst r) = false -> redis (snd r) = redis w)
  /\ (forall payload username,
         jwt_decode t SECRET' ALGORITHMS' now = Ok payload ->
         payload_sub payload = Some username ->
         is_Some (redis_lookup (redis w) username rnow) ->
         redis (snd r) = redis w).
Proof.
  cbv zeta. rewrite get_current_user_eq.
  destruct (jwt_decode _ _ _ _) as [payload|e] eqn:Hdec.
  2:{ split_and!; done. }
  destruct (payload_sub payload) as [username|] eqn:Hsub.
  2:{ split_and!; done. }
  destruct (negb _).
  { split_and!; done. }
  destruct (redis_lookup (redis w) username rnow) as [snapshot|] eqn:Hlookup.
  { split_and!; done. }
  cbv zeta.
  assert (Hhit : forall p u,
             @Ok JWTError dict payload = Ok p -> payload_sub p = Some u ->
             is_Some (redis_lookup (redis w) u rnow) -> False).
  { intros p u [= <-] Hu [x Hx]. congruence. }
  destruct (select_users username None w) as [|user [|user' rows]] eqn:Hsel.
  - split_and!; try done; intros p u H1 H2 H3; by destruct (Hhit p u).
  - destruct (cache_put_frame username user rnow (db_log (SelectUser username None) w))
      as (Husers & Hcontact & Hgroup & Hkeys).
    cbn [fst snd]. split_and!; try done.
    + intros key Hkey. destruct (decide (key = username)) as [->|Hne].
      * exists payload, user. split_and!; try done.
        assert (Hin : user ∈ select_users username None w) by (rewrite Hsel; left).
        by apply list_elem_of_filter in Hin as [_ Hin].
      * destruct Hkey. by rewrite Hkeys.
    + intros p u H1 H2 H3. by destruct (Hhit p u).
  - split_and!; try done; intros p u H1 H2 H3; by destruct (Hhit p u).
Qed.

(** X8. Staleness ends with the timeout. With unique usernames, once the
    timeout of the cache entry of a username has run out, an access token
    of that subject resolves to the row that the [users] table holds now,
    whatever the snapshot said, and the entry is written anew from that row
    (for a positive [REDIS_EXPIRATION_TIME]); if the table has no such row
    any more, the token is refused with 401. *)
Theorem resolution_after_timeout (t : token) (payload : dict) (username : string)
    (now rnow expires : Z) (snapshot : UserBase.t) (w : World) :
  unique_usernames (users w) ->
  jwt_decode t SECRET' ALGORITHMS' now = Ok payload ->
  payload_sub payload = Some username ->
  payload_token_type payload = Some (JStr "access") ->
  redis w !! username = Some (snapshot, Some expires) ->
  expires <= rnow ->
  let r := get_current_user config t now rnow w in
  (forall user,
      user ∈ users w -> User.username user = username ->
      fst r = Ok user
      /\ (0 < REDIS_EXPIRATION_TIME config ->
          redis (snd r) !! username
          = Some (UserBase.model_validate user,
                  Some (rnow + timedelta_seconds (REDIS_EXPIRATION_TIME config)))))
  /\ ((forall user, user ∈ users w -> User.username user <> username) ->
      fst r = Err credentials_exception).
Proof.
  intros Huniq Hdec Hsub Hkind Hentry Hlate. cbv zeta.
  assert (Hmiss : redis_lookup (redis w) username rnow = None).
  { unfold redis_lookup, live. rewrite Hentry. simpl.
    by destruct (Z.ltb_spec rnow expires); [lia|]. }
  rewrite get_current_user_eq, Hdec, Hsub, Hkind, Hmiss.
  rewrite bool_decide_true by done. cbn [negb]. cbv zeta.
  destruct (select_users_unique username w Huniq)
    as [[-> Hnone]|(u & -> & Hin & Hname & Hone)].
  - split; [|done]. intros user Huser Heq. by destruct (Hnone user).
  - split.
    + intros user Huser Heq. rewrite (Hone user Huser Heq). split; [done|].
      intros Httl.
      by destruct (cache_put_spec config username u rnow
                     (db_log (SelectUser username None) w) Httl)
        as (_ & _ & _ & _ & Hput & _).
    + intros Hnone. by destruct (Hnone u).
Qed.

(** ** Confirmation of an email address *)

(** Rows that a unique key selects: none, or the one row of the key. *)
Lemma filter_unique_key {A K} (key : A -> K) (P : A -> Prop)
    `{!forall x, Decision (P x)} (k : K) (l : list A) :
  NoDup (key <$> l) -> (forall x, P x <-> key x = k) ->
  (filter P l = [] /\ forall x, x ∈ l -> key x <> k)
  \/ (exists x, filter P l = [x] /\ x ∈ l /\ key x = k
                /\ forall y, y ∈ l -> key y = k -> y = x).
Proof.
  intros Hnd HP.
  destruct (filter P l) as [|x rest] eqn:Hf.
  - left. split; [done|]. intros x Hx Hk.
    assert (x ∈ filter P l) as Hin by (apply list_elem_of_filter; by rewrite HP).
    rewrite Hf in Hin. by apply elem_of_nil in Hin.
  - right. exists x.
    assert (Hx : x ∈ filter P l) by (rewrite Hf; left).
    apply list_elem_of_filter in Hx as [Hk%HP Hx].
    assert (Hone : forall y, y ∈ l -> key y = k -> y = x).
    { intros y Hy Hky. eapply (NoDup_fmap_eq key); [done..|congruence]. }
    split_and!; try done. f_equal.
    destruct rest as [|y rest]; [done|]. exfalso.
    assert (Hnd' : NoDup (filter P l)).
    { apply NoDup_filter. by eapply NoDup_fmap_1. }
    rewrite Hf in Hnd'. apply NoDup_cons in Hnd' as [Hfresh _].
    assert (Hy : y ∈ filter P l) by (rewrite Hf; right; left).
    apply list_elem_of_filter in Hy as [Hky%HP Hy].
    apply Hfresh. rewrite (Hone y Hy Hky). left.
Qed.

Lemma where_email_Some (email : string) (u : User.t) :
  where_email (Some email) u = true <-> User.email u = email.
Proof.
  unfold where_email. rewrite bool_decide_eq_true. split; congruence.
Qed.

Lemma select_by_email_None (w : World) : select_by_email None w = [].
Proof.
  unfold select_by_email. induction (users w) as [|u us IH]; [done|].
  by rewrite filter_cons_False.
Qed.

Lemma select_by_email_unique (email : string) (w : World) :
  unique_emails (users w) ->
  (select_by_email (Some email) w = []
   /\ forall u, u ∈ users w -> User.email u <> email)
  \/ (exists u, select_by_email (Some email) w = [u]
                /\ u ∈ users w /\ User.email u = email
                /\ forall u', u' ∈ users w -> User.email u' = email -> u' = u).
Proof.
  intros Huniq. apply (filter_unique_key User.email); [done|].
  intros u. apply where_email_Some.
Qed.

Lemma get_user_by_email_eq (email : option string) (w : World) :
  UserService_get_user_by_email email w
  = (match select_by_email email w with
     | [] => Ok None
     | [row] => Ok (Some row)
     | _ => Err MultipleResultsFound
     end, w).
Proof.
  unfold UserService_get_user_by_email, UserRepository_get_user_by_email,
    select_by_email.
  by destruct (filter _ (users w)) as [|row [|row' rows]].
Qed.

Lemma confirm_email_eq (t : token) (now : Z) (w : World) :
  confirm_email config t now w
  = match get_email_from_token config t now with
    | Err e => (Err (Known e), w)
    | Ok email =>
        match select_by_email email w with
        | [] => (Err (Known (HTTPException HTTP_404_NOT_FOUND USER_NOT_FOUND)), w)
        | [user] =>
            if truthy_bool (User.confirmed user)
            then (Ok USER_ALREADY_CONFIRMED, w)
            else (Ok USER_CONFIRMED, confirmed_world user w)
        | _ => (Err (Known MultipleResultsFound), w)
        end
    end.
Proof.
  unfold confirm_email, bindX at 1.
  destruct (get_email_from_token config t now) as [email|e]; [|done].
  unfold lift_result, retX, bindX at 1, lift. rewrite get_user_by_email_eq.
  destruct (select_by_email email w) as [|user [|user' rows]] eqn:Hsel; try done.
  destruct (truthy_bool _); [done|].
  unfold bindX, UserService_confirmed_email, UserRepository_confirmed_email,
    bindX, lift.
  fold (UserService_get_user_by_email email).
  rewrite get_user_by_email_eq, Hsel. done.
Qed.

(** X9. With unique emails, the confirmation endpoint answers 422 when
    the token does not decode; 404, changing nothing, when the token has no
    subject or no user has the subject as email; "already confirmed",
    changing nothing, when that user is confirmed; and otherwise it marks
    the row of that user's id as confirmed and answers "confirmed". It
    never fails with an [AttributeError]: the user that the repository
    looks up again is the one the endpoint has just found. *)
Theorem confirm_email_outcomes (t : token) (now : Z) (w : World) :
  unique_emails (users w) ->
  let r := confirm_email config t now w in
  fst r <> Err AttributeError
  /\ match get_email_from_token config t now with
     | Err e => r = (Err (Known e), w)
     | Ok email =>
         (forall user,
             user ∈ users w -> Some (User.email user) = email ->
             r = if truthy_bool (User.confirmed user)
                 then (Ok USER_ALREADY_CONFIRMED, w)
                 else (Ok USER_CONFIRMED, confirmed_world user w))
         /\ ((forall user, user ∈ users w -> Some (User.email user) <> email) ->
             r = (Err (Known (HTTPException HTTP_404_NOT_FOUND USER_NOT_FOUND)), w))
     end.
Proof.
  intros Huniq. cbv zeta. rewrite confirm_email_eq.
  destruct (get_email_from_token config t now) as [[email|]|e]; [| |done].
  - destruct (select_by_email_unique email w Huniq)
      as [[-> Hnone]|(u & -> & Hin & Hmail & Hone)].
    + split_and!; try done. intros user Huser [= Heq]. by destruct (Hnone user).
    + split_and!.
      * by destruct (truthy_bool _).
      * intros user Huser [= Heq]. by rewrite (Hone user Huser Heq).
      * intros Hnone. destruct (Hnone u Hin). by rewrite Hmail.
  - rewrite select_by_email_None. split_and!; done.
Qed.

(** A change that keeps a unique key keeps it unique, and the changed row
    of the user is in the table. *)
Lemma store_user_key {K} (key : User.t -> K) (user : User.t)
    (change : User.t -> User.t) (us : list User.t) :
  NoDup (key <$> us) -> user ∈ us -> (forall row, key (change row) = key row) ->
  NoDup (key <$> store_user (User.id user) change us)
  /\ change user ∈ store_user (User.id user) change us.
Proof.
  intros Hnd Hin Hkey. unfold store_user. split.
  - rewrite <- list_fmap_compose.
    rewrite (list_fmap_ext _ key us); [done|].
    intros _ row _. simpl. by case_bool_decide.
  - eapply list_elem_of_fmap_2'; [done|]. by rewrite bool_decide_true.
Qed.

Lemma select_users_confirmed (user : User.t) (w : World) :
  unique_usernames (users w) -> user ∈ users w ->
  select_users (User.username user) None (confirmed_world user w)
  = [User_set_confirmed user (Some true)].
Proof.
  intros Huniq Hin.
  destruct (store_user_key User.username user
              (fun row => User_set_confirmed row (Some true)) (users w) Huniq Hin)
    as [Huniq' Hin']; [done|].
  destruct (select_users_unique (User.username user) (confirmed_world user w) Huniq')
    as [[_ Hnone]|(u & Hsel & _ & _ & Hone)].
  - by destruct (Hnone _ Hin').
  - by rewrite <- (Hone _ Hin' eq_refl) in Hsel.
Qed.

Lemma select_by_email_confirmed (user : User.t) (w : World) :
  unique_emails (users w) -> user ∈ users w ->
  select_by_email (Some (User.email user)) (confirmed_world user w)
  = [User_set_confirmed user (Some true)].
Proof.
  intros Huniq Hin.
  destruct (store_user_key User.email user
              (fun row => User_set_confirmed row (Some true)) (users w) Huniq Hin)
    as [Huniq' Hin']; [done|].
  destruct (select_by_email_unique (User.email user) (confirmed_world user w) Huniq')
    as [[_ Hnone]|(u & Hsel & _ & _ & Hone)].
  - by destruct (Hnone _ Hin').
  - by rewrite <- (Hone _ Hin' eq_refl) in Hsel.
Qed.

(** X10. With unique usernames and emails: when the confirmation endpoint
    answers "confirmed", the user it confirmed could not log in before
    (the right password met the not-confirmed error) and can log in after;
    and the same token, presented again while it decodes, is answered
    "already confirmed" and changes nothing. *)
Theorem confirmation_enables_login (t : token) (now : Z) (w w' : World) :
  unique_usernames (users w) -> unique_emails (users w) ->
  confirm_email config t now w = (Ok USER_CONFIRMED, w') ->
  exists user,
    user ∈ users w
    /\ get_email_from_token config t now = Ok (Some (User.email user))
    /\ (forall form_data now_a now_r,
           Form.username form_data = User.username user ->
           verify_password pwd_context_verify (Form.password form_data)
             (User.hashed_password user) = true ->
           fst (login_user config pwd_context_verify form_data now_a now_r w)
           = Err (HTTPException HTTP_401_UNAUTHORIZED USER_NOT_CONFIRMED)
           /\ fst (login_user config pwd_context_verify form_data now_a now_r w')
              = Ok (Token.mk
                      (create_access_token config
                         [("sub", JStr (User.username user))] None now_a)
                      (create_refresh_token config
                         [("sub", JStr (User.username user))] None now_r)
                      "bearer"))
    /\ (forall now',
           get_email_from_token config t now' = Ok (Some (User.email user)) ->
           confirm_email config t now' w' = (Ok USER_ALREADY_CONFIRMED, w')).
Proof.
  intros Hnames Hmails. rewrite confirm_email_eq.
  destruct (get_email_from_token config t now) as [[email|]|e] eqn:Hget; [| |done].
  2:{ by rewrite select_by_email_None. }
  destruct (select_by_email_unique email w Hmails)
    as [[-> _]|(user & -> & Hin & Hmail & _)]; [done|].
  destruct (truthy_bool (User.confirmed user)) eqn:Hconfirmed; [done|].
  intros [= <-]. exists user. subst email. split_and!; [done..| |].
  - intros form_data now_a now_r Hform Hpwd. rewrite !login_user_eq. cbv zeta.
    rewrite Hform. split.
    + destruct (select_users_unique (User.username user) w Hnames)
        as [[_ Hnone]|(u & -> & _ & _ & Hone)]; [by destruct (Hnone user)|].
      rewrite <- (Hone user Hin eq_refl). by rewrite Hpwd, Hconfirmed.
    + rewrite select_users_confirmed by done.
      change (User.hashed_password (User_set_confirmed user (Some true)))
        with (User.hashed_password user).
      by rewrite Hpwd.
  - intros now' Hget'. rewrite confirm_email_eq, Hget'.
    by rewrite select_by_email_confirmed.
Qed.

(** ** The request of a confirmation mail, and registration *)

(** X11. With unique emails, the request of a confirmation mail hands a
    mail to the background tasks exactly when a user has the address and is
    not confirmed, and then one mail, to that user's address and name; for a
    confirmed user it answers "already confirmed" and for an unknown
    address 404, with no mail. It never changes the world. *)
Theorem request_email_outcomes (body_email base_url : string) (w : World) :
  unique_emails (users w) ->
  let r := request_email body_email base_url w in
  snd r = w
  /\ (forall user,
         user ∈ users w -> User.email user = body_email ->
         fst r = Ok (if truthy_bool (User.confirmed user)
                     then (USER_ALREADY_CONFIRMED, [])
                     else (EMAIL_SENT,
                           [send_email body_email (User.username user) base_url])))
  /\ ((forall user, user ∈ users w -> User.email user <> body_email) ->
      fst r = Err (HTTPException HTTP_404_NOT_FOUND USER_NOT_FOUND)).
Proof.
  intros Huniq. cbv zeta. unfold request_email, bind.
  rewrite get_user_by_email_eq.
  destruct (select_by_email_unique body_email w Huniq)
    as [[-> Hnone]|(u & -> & Hin & Hmail & Hone)].
  - split_and!; try done. intros user Huser Heq. by destruct (Hnone user).
  - split_and!.
    + by destruct (truthy_bool _).
    + intros user Huser Heq. rewrite <- (Hone user Huser Heq), Heq.
      by destruct (truthy_bool _).
    + intros Hnone. by destruct (Hnone u).
Qed.

Variable get_password_hash : string -> string.
Variable UserService_create_user : UserCreate.t -> M User.t.

Lemma register_eq (body : UserCreate.t) (base_url : string) (w : World) :
  register get_password_hash UserService_create_user body base_url w
  = match select_by_email (Some (UserCreate.email body)) w with
    | [] =>
        let w1 := db_log (SelectUser (UserCreate.username body) None) w in
        match select_users (UserCreate.username body) None w with
        | [] =>
            match UserService_create_user
                    (UserCreate.set_password body
                       (get_password_hash (UserCreate.password body))) w1 with
            | (Ok new_user, w') =>
                (Ok (new_user,
                     [send_email (User.email new_user) (User.username new_user)
                        base_url]), w')
            | (Err e, w') => (Err e, w')
            end
        | [_] =>
            (Err (HTTPException HTTP_409_CONFLICT USER_EMAIL_OR_NAME_ALREADY_EXISTS),
             w1)
        | _ => (Err MultipleResultsFound, w1)
        end
    | [_] =>
        (Err (HTTPException HTTP_409_CONFLICT USER_EMAIL_OR_NAME_ALREADY_EXISTS), w)
    | _ => (Err MultipleResultsFound, w)
    end.
Proof.
  unfold register, bind at 1. rewrite get_user_by_email_eq.
  destruct (select_by_email _ w) as [|u [|u' us]]; try done.
  unfold bind at 1. rewrite get_user_by_username_eq. cbv zeta.
  by destruct (select_users _ None w) as [|u [|u' us]].
Qed.

(** X12. With unique usernames and emails, registration answers 409 when a
    user already has the email or the username of the body, and then
    neither the hasher nor [create_user] has run: the tables and the cache
    are as before. When both are free, [create_user] runs once, on the body
    whose password has been replaced by its digest, and a mail to the new
    user is handed to the background tasks. *)
Theorem register_outcomes (body : UserCreate.t) (base_url : string) (w : World) :
  unique_usernames (users w) -> unique_emails (users w) ->
  let r := register get_password_hash UserService_create_user body base_url w in
  ((exists user,
       user ∈ users w
       /\ (User.email user = UserCreate.email body
           \/ User.username user = UserCreate.username body)) ->
   fst r = Err (HTTPException HTTP_409_CONFLICT USER_EMAIL_OR_NAME_ALREADY_EXISTS)
   /\ users (snd r) = users w /\ contact (snd r) = contact w
   /\ group (snd r) = group w /\ redis (snd r) = redis w)
  /\ ((forall user,
          user ∈ users w ->
          User.email user <> UserCreate.email body
          /\ User.username user <> UserCreate.username body) ->
      r = match UserService_create_user
                  (UserCreate.set_password body
                     (get_password_hash (UserCreate.password body)))
                  (db_log (SelectUser (UserCreate.username body) None) w) with
          | (Ok new_user, w') =>
              (Ok (new_user,
                   [send_email (User.email new_user) (User.username new_user)
                      base_url]), w')
          | (Err e, w') => (Err e, w')
          end).
Proof.
  intros Hnames Hmails. cbv zeta. rewrite register_eq. cbv zeta.
  destruct (select_by_email_unique (UserCreate.email body) w Hmails)
    as [[-> Hnomail]|(u & -> & Hin & Hmail & _)].
  - destruct (select_users_unique (UserCreate.username body) w Hnames)
      as [[-> Hnoname]|(u & -> & Hin & Hname & _)].
    + split; [|done].
      intros (user & Huser & [Heq|Heq]);
        [by destruct (Hnomail user)|by destruct (Hnoname user)].
    + split; [done|]. intros Hfree. by destruct (Hfree u Hin) as [_ []].
  - split; [done|]. intros Hfree. by destruct (Hfree u Hin) as [[] _].
Qed.

(** ** Only the latest refresh token *)

(** What a successful login or refresh for a username did to the table. *)
Lemma session_event_ok (w w' : World) (response : Token.t) (username : string)
    (now_r : Z) :
  ((exists form_data now_a,
       Form.username form_data = username
       /\ login_user config pwd_context_verify form_data now_a now_r w
          = (Ok response, w'))
   \/ (exists presented now now_a,
          refresh_claims config presented now = Some username
          /\ new_token config presented now now_a now_r w = (Ok response, w'))) ->
  exists user,
    user ∈ users w /\ User.username user = username
    /\ Token.refresh_token response
       = create_refresh_token config [("sub", JStr username)] None now_r
    /\ users w' = store_refresh_token (User.id user)
                    (Some (Token.refresh_token response)) (users w).
Proof.
  intros [(form_data & now_a & Hform & Hrun)
         |(presented & now & now_a & Hclaims & Hrun)].
  - apply login_user_ok in Hrun as (user & _ & Hin & Hname & -> & Husers & _).
    exists user. cbn [Token.refresh_token] in *.
    split_and!; try done; congruence.
  - apply new_token_ok in Hrun as (user & Hverify & Hin & -> & Husers & _).
    apply verify_refresh_token_stored in Hverify
      as (_ & _ & payload & Hdec & Hsub & Hkind & _).
    unfold refresh_claims in Hclaims. rewrite Hdec, Hkind, Hsub in Hclaims.
    rewrite bool_decide_true in Hclaims by done. injection Hclaims as Hname.
    exists user. cbn [Token.refresh_token] in *.
    split_and!; try done; congruence.
Qed.

(** X15. With unique usernames, a successful login or refresh for a
    username ends every earlier session of that username: right after it,
    every other token that decodes as a refresh token of the same subject,
    such as the one returned by an earlier login, is answered with 401
    invalid-refresh-token. In particular the refresh token of a login is
    refused once the same user has logged in again in another second. *)
Theorem earlier_refresh_tokens_refused (w w' : World) (response : Token.t)
    (username : string) (now_r : Z) :
  unique_usernames (users w) ->
  ((exists form_data now_a,
       Form.username form_data = username
       /\ login_user config pwd_context_verify form_data now_a now_r w
          = (Ok response, w'))
   \/ (exists presented now now_a,
          refresh_claims config presented now = Some username
          /\ new_token config presented now now_a now_r w = (Ok response, w'))) ->
  (forall earlier now' now_a' now_r',
      refresh_claims config earlier now' = Some username ->
      earlier <> Token.refresh_token response ->
      fst (new_token config earlier now' now_a' now_r' w')
      = Err (HTTPException HTTP_401_UNAUTHORIZED INVALID_REFRESH_TOKEN))
  /\ (forall issued now' now_a' now_r',
         timegm issued <> timegm now_r ->
         now' <= issued + timedelta_seconds (JWT_REFRESH_EXPIRATION_SECONDS config) ->
         fst (new_token config
                (create_refresh_token config [("sub", JStr username)] None issued)
                now' now_a' now_r' w')
         = Err (HTTPException HTTP_401_UNAUTHORIZED INVALID_REFRESH_TOKEN)).
Proof.
  intros Huniq Hevent.
  destruct (session_event_ok w w' response username now_r Hevent)
    as (user & Hin & Hname & Hrt & Husers).
  destruct (select_users_after_store user _ w w' Huniq Hin Husers) as [Hsel _].
  assert (Hforgotten : forall earlier,
             earlier <> Token.refresh_token response ->
             forgotten username earlier w').
  { intros earlier Hne row Hrow Hrowname.
    assert (Hrow' : row ∈ select_users (User.username user) None w').
    { apply list_elem_of_filter. split; [|done].
      apply where_username_None. congruence. }
    rewrite Hsel in Hrow'. apply list_elem_of_singleton in Hrow' as ->.
    simpl. congruence. }
  assert (Hrefused : forall earlier now' now_a' now_r',
             refresh_claims config earlier now' = Some username ->
             earlier <> Token.refresh_token response ->
             fst (new_token config earlier now' now_a' now_r' w')
             = Err (HTTPException HTTP_401_UNAUTHORIZED INVALID_REFRESH_TOKEN)).
  { intros earlier now' now_a' now_r' Hclaims Hne.
    unfold refresh_claims in Hclaims.
    destruct (jwt_decode earlier SECRET' ALGORITHMS' now') as [payload|e] eqn:Hdec;
      [|done].
    case_bool_decide as Hkind; [|done].
    by apply (new_token_forgotten config earlier payload username); [..|apply Hforgotten]. }
  split; [exact Hrefused|].
  intros issued now' now_a' now_r' Hsecond Hle. apply Hrefused.
  - destruct (subject_token_decodes username "refresh"
                (JWT_REFRESH_EXPIRATION_SECONDS config) issued now' Hle)
      as (payload & Hdec & Hsub & Hkind).
    unfold refresh_claims. rewrite create_refresh_token_lifetime.
    change (lifetime (JWT_REFRESH_EXPIRATION_SECONDS config) None)
      with (JWT_REFRESH_EXPIRATION_SECONDS config).
    rewrite Hdec, Hkind. by rewrite bool_decide_true.
  - rewrite Hrt. by apply refresh_tokens_of_distinct_seconds.
Qed.

(** ** The mailed token *)

(** The subject of an email token, while it lasts. *)
Lemma email_token_subject (email : string) (now_exp now_iat now : Z) :
  get_email_from_token config
    (create_email_token config [("sub", JStr email)] now_exp now_iat) now
  = if timegm now <=? timegm now_exp + 604800
    then Ok (Some email)
    else Err (HTTPException HTTP_422_UNPROCESSABLE_ENTITY UNEXISTING_TOKEN).
Proof.
  unfold create_email_token, SEVEN_DAYS. rewrite timegm_add_seven_days.
  unfold get_email_from_token, jwt_encode, jwt_decode.
  rewrite bool_decide_true by left. rewrite String.eqb_refl. simpl.
  unfold validate_claims, validate_exp. simpl.
  destruct (Z.ltb_spec (timegm now_exp + 604800) (timegm now));
    destruct (Z.leb_spec (timegm now) (timegm now_exp + 604800)); try lia; done.
Qed.

(** X16. With unique emails, the token that [create_email_token] issues
    for the address of an unconfirmed user confirms that user, whenever
    the link is followed within seven days of the issue: the row of the
    user's id is marked as confirmed and nothing else changes. Followed
    later, the link is answered with 422 and changes nothing. *)
Theorem mailed_token_confirms (user : User.t) (now_exp now_iat now : Z)
    (w : World) :
  unique_emails (users w) -> user ∈ users w ->
  truthy_bool (User.confirmed user) = false ->
  confirm_email config
    (create_email_token config [("sub", JStr (User.email user))] now_exp now_iat)
    now w
  = if timegm now <=? timegm now_exp + 604800
    then (Ok USER_CONFIRMED, confirmed_world user w)
    else (Err (Known (HTTPException HTTP_422_UNPROCESSABLE_ENTITY UNEXISTING_TOKEN)),
          w).
Proof.
  intros Hmails Hin Hunconfirmed.
  rewrite confirm_email_eq, email_token_subject.
  destruct (timegm now <=? timegm now_exp + 604800); [|done].
  destruct (select_by_email_unique (User.email user) w Hmails)
    as [[_ Hnone]|(u & -> & _ & _ & Hone)]; [by destruct (Hnone user)|].
  rewrite <- (Hone user Hin eq_refl). by rewrite Hunconfirmed.
Qed.

(** ** Lookup by id *)

(** X17. With the primary key on [users.id], [get_user_by_id] returns the
    row of the id if there is one and [None] if there is none, never fails
    with [MultipleResultsFound], and changes nothing. *)
Theorem get_user_by_id_spec (user_id : Z) (w : World) :
  unique_ids (users w) ->
  let r := UserRepository_get_user_by_id user_id w in
  snd r = w
  /\ fst r <> Err MultipleResultsFound
  /\ (forall user, user ∈ users w -> User.id user = user_id -> fst r = Ok (Some user))
  /\ ((forall user, user ∈ users w -> User.id user <> user_id) -> fst r = Ok None).
Proof.
  intros Hids. cbv zeta. unfold UserRepository_get_user_by_id, scalar_one_or_none.
  destruct (filter_unique_key User.id (fun u => User.id u = user_id) user_id
              (users w) Hids) as [[-> Hnone]|(u & -> & Hin & Hid & Hone)];
    [done| |].
  - split_and!; try done. intros user Huser Hid. by destruct (Hnone user).
  - split_and!; try done.
    + intros user Huser Huid. by rewrite (Hone user Huser Huid).
    + intros Hnone. by destruct (Hnone u).
Qed.

(** ** The change of an avatar *)

Variable File : Type.
Variable upload_file : File -> string -> string.

(** The world after the avatar of the row of [user] has been set. *)
Lemma update_avatar_eq (t : token) (file : File) (now rnow : Z) (w : World) :
  update_avatar config File upload_file t file now rnow w
  = match get_current_user config t now rnow w with
    | (Err e, w1) => (Err (Known e), w1)
    | (Ok current_user, w1) =>
        if negb (bool_decide (User.role current_user = ADMIN))
        then (Err (Known (HTTPException HTTP_403_FORBIDDEN INSUFFICIENT_PERMISSIONS)),
              w1)
        else
          let avatar_url := upload_file file (User.username current_user) in
          match select_by_email (Some (User.email current_user)) w1 with
          | [] => (Err AttributeError, w1)
          | [row] =>
              (Ok (User_set_avatar row (Some avatar_url)),
               set_users
                 (store_user (User.id row)
                    (fun r => User_set_avatar r (Some avatar_url)) (users w1)) w1)
          | _ => (Err (Known MultipleResultsFound), w1)
          end
    end.
Proof.
  unfold update_avatar, bindX at 1, lift at 1.
  destruct (get_current_user config t now rnow w) as [[current_user|e] w1]; [|done].
  unfold bindX at 1, get_current_admin_user.
  case_bool_decide; simpl; [|done].
  unfold UserService_update_avatar_url, UserRepository_update_avatar_url,
    bindX at 1, lift at 1.
  fold (UserService_get_user_by_email (Some (User.email current_user))).
  rewrite get_user_by_email_eq.
  by destruct (select_by_email _ w1) as [|row [|row' rows]].
Qed.

(** X13. The avatar endpoint changes the [users] table only for a token
    that resolves to an identity with the role ADMIN: when the token does
    not resolve, the error of the resolution is the answer, and when the
    resolved identity has another role, the answer is 403 and the table is
    as before. *)
Theorem update_avatar_needs_admin (t : token) (file : File) (now rnow : Z)
    (w : World) :
  let resolved := fst (get_current_user config t now rnow w) in
  let r := update_avatar config File upload_file t file now rnow w in
  (forall e, resolved = Err e -> fst r = Err (Known e) /\ users (snd r) = users w)
  /\ (forall identity,
         resolved = Ok identity -> User.role identity <> ADMIN ->
         fst r = Err (Known (HTTPException HTTP_403_FORBIDDEN INSUFFICIENT_PERMISSIONS))
         /\ users (snd r) = users w)
  /\ (users (snd r) <> users w ->
      exists identity, resolved = Ok identity /\ User.role identity = ADMIN).
Proof.
  cbv zeta. rewrite update_avatar_eq.
  pose proof (get_current_user_users config t now rnow w) as Husers.
  destruct (get_current_user config t now rnow w) as [[identity|e] w1];
    cbn [fst snd] in *.
  - case_bool_decide as Hrole; cbn [negb fst snd].
    + split; [done|]. split; [by intros i [= <-] Hno|]. intros _. by exists identity.
    + split; [done|]. split; [by intros i [= <-] _|]. by intros Hne.
  - split; [by intros e' [= <-]|]. split; [done|]. by intros Hne.
Qed.

(** X14. The avatar endpoint does not refresh the cache. With unique
    usernames and emails and a positive [REDIS_EXPIRATION_TIME]: when an
    administrator whose identity was read from the [users] table (no live
    cache entry) changes the avatar, the row of that user gets the URL that
    the upload answered, and until the timeout of the cache entry written
    by that very request runs out, every resolution of an access token of
    the same subject returns the avatar from before the change. *)
Theorem avatar_change_hidden_by_cache (t : token) (payload : dict)
    (username : string) (file : File) (now rnow : Z) (w w' : World)
    (updated : User.t) :
  unique_usernames (users w) -> unique_emails (users w) ->
  0 < REDIS_EXPIRATION_TIME config ->
  jwt_decode t SECRET' ALGORITHMS' now = Ok payload ->
  payload_sub payload = Some username ->
  redis_lookup (redis w) username rnow = None ->
  update_avatar config File upload_file t file now rnow w = (Ok updated, w') ->
  exists user,
    user ∈ users w /\ User.username user = username /\ User.role user = ADMIN
    /\ updated = User_set_avatar user (Some (upload_file file username))
    /\ users w'
       = store_user (User.id user)
           (fun r => User_set_avatar r (Some (upload_file file username))) (users w)
    /\ forall (t2 : token) (payload2 : dict) (now2 rnow2 : Z),
         jwt_decode t2 SECRET' ALGORITHMS' now2 = Ok payload2 ->
         payload_sub payload2 = Some username ->
         payload_token_type payload2 = Some (JStr "access") ->
         rnow2 < rnow + timedelta_seconds (REDIS_EXPIRATION_TIME config) ->
         exists identity,
           fst (get_current_user config t2 now2 rnow2 w') = Ok identity
           /\ User.avatar identity = User.avatar user.
Proof.
  intros Hnames Hmails Httl Hdec Hsub Hmiss. rewrite update_avatar_eq.
  rewrite get_current_user_eq, Hdec, Hsub, Hmiss.
  destruct (negb (bool_decide (payload_token_type payload = _))); [done|].
  cbv zeta.
  destruct (select_users_unique username w Hnames)
    as [[-> _]|(user & -> & Hin & Hname & _)]; [done|].
  set (w1 := cache_put config username user rnow (db_log (SelectUser username None) w)).
  destruct (cache_put_spec config username user rnow
              (db_log (SelectUser username None) w) Httl)
    as (Husers & _ & _ & _ & Hentry & _).
  fold w1 in Husers, Hentry. cbn [users db_log] in Husers.
  case_bool_decide as Hrole; cbn [negb]; [|done].
  assert (Hsel : select_by_email (Some (User.email user)) w1 = [user]).
  { unfold select_by_email. rewrite Husers.
    destruct (select_by_email_unique (User.email user) w Hmails)
      as [[_ Hnone]|(u & Hsel & _ & _ & Hone)]; [by destruct (Hnone user)|].
    by rewrite <- (Hone user Hin eq_refl) in Hsel. }
  rewrite Hsel, Hname. intros [= <- <-]. exists user.
  split_and!; try done.
  { cbn [users set_users]. by rewrite Husers. }
  intros t2 payload2 now2 rnow2 Hdec2 Hsub2 Hkind2 Hlive.
  rewrite get_current_user_eq, Hdec2, Hsub2, Hkind2.
  rewrite bool_decide_true by done. cbn [negb].
  assert (Hhit : redis_lookup (redis w1) username rnow2
                 = Some (UserBase.model_validate user)).
  { unfold redis_lookup. rewrite Hentry. unfold live. simpl.
    by destruct (Z.ltb_spec rnow2
                   (rnow + timedelta_seconds (REDIS_EXPIRATION_TIME config)));
      [|lia]. }
  cbn [redis set_users]. rewrite Hhit. by eexists.
Qed.

End FurtherProperties.

(** * The further properties at the sample *)

Module FurtherExamples.

Import Sample Scenario.

(** X1 at the sample: eight days after her login, both of alice's tokens
    have run out. *)
Lemma expired_session_token_refused_witness :
  get_current_user config at1 t_next_week t_next_week (snd logged_in)
  = (Err credentials_exception, snd logged_in)
  /\ new_token config rt1 t_next_week t_next_week t_next_week (snd logged_in)
     = (Err credentials_exception, snd logged_in).
Proof.
  pose proof (expired_session_token_refused config [("sub", JStr "alice")] None
                t_login t_next_week (snd logged_in)) as [Haccess Hrefresh].
  split.
  - apply (Haccess ltac:(vm_compute; done) t_next_week).
  - apply (Hrefresh ltac:(vm_compute; done) t_next_week t_next_week).
Defined.

(** X2 at the sample: a token with alice's claims under a guessed key. *)
Lemma foreign_token_accepted_nowhere_witness :
  (forall payload, forged <> JWS (JWT_SECRET config) (JWT_ALGORITHM config) payload)
  /\ get_current_user config forged t_later t_later world
     = (Err credentials_exception, world)
  /\ new_token config forged t_later t_later t_later world
     = (Err credentials_exception, world)
  /\ confirm_email config forged t_later world
     = (Err (Known (HTTPException HTTP_422_UNPROCESSABLE_ENTITY UNEXISTING_TOKEN)),
        world).
Proof.
  assert (Hforeign : forall payload,
             forged <> JWS (JWT_SECRET config) (JWT_ALGORITHM config) payload)
    by (intros payload; vm_compute; discriminate).
  destruct (foreign_token_accepted_nowhere config forged t_later world Hforeign)
    as (Hresolve & Hrefresh & _ & Hconfirm).
  split; [exact Hforeign|]. split; [exact (Hresolve t_later)|].
  split; [exact (Hrefresh t_later t_later)|exact Hconfirm].
Defined.

(** X3 at the sample: alice's access token resolves to her row after her
    login, for an hour. *)
Lemma login_then_resolve_witness :
  unique_usernames (users world)
  /\ logged_in = (Ok (Token.mk at1 rt1 "bearer"), snd logged_in)
  /\ exists user,
       user ∈ users world /\ User.username user = "alice"
       /\ forall now' rnow,
            now' <= t_login + timedelta_seconds 3600 ->
            fst (get_current_user config at1 now' rnow (snd logged_in))
            = match redis_lookup (redis world) (User.username user) rnow with
              | Some snapshot =>
                  Ok (User_of_cache snapshot
                        (contacts_of (snd logged_in) (UserBase.id snapshot))
                        (groups_of (snd logged_in) (UserBase.id snapshot)))
              | None => Ok (User.set_refresh_token user (Some rt1))
              end.
Proof.
  assert (Huniq : unique_usernames (users world))
    by (apply (bool_decide_unpack _); vm_compute; done).
  assert (Hrun : logged_in = (Ok (Token.mk at1 rt1 "bearer"), snd logged_in))
    by (vm_compute; done).
  split; [exact Huniq|]. split; [exact Hrun|].
  exact (login_then_resolve config pwd_context_verify form t_login t_login world
           (snd logged_in) (Token.mk at1 rt1 "bearer") Huniq Hrun).
Defined.

(** X4 at the sample: the refresh token of alice's login is accepted for
    seven days. *)
Lemma returned_refresh_token_accepted_witness :
  unique_usernames (users world)
  /\ forall now' now_a' now_r',
       now' <= t_login + timedelta_seconds 604800 ->
       fst (new_token config rt1 now' now_a' now_r' (snd logged_in))
       = Ok (Token.mk
               (create_access_token config [("sub", JStr "alice")] None now_a')
               (create_refresh_token config [("sub", JStr "alice")] None now_r')
               "bearer").
Proof.
  assert (Huniq : unique_usernames (users world))
    by (apply (bool_decide_unpack _); vm_compute; done).
  assert (Hrun : login_user config pwd_context_verify form t_login t_login world
                 = (Ok (Token.mk at1 rt1 "bearer"), snd logged_in))
    by (vm_compute; done).
  split; [exact Huniq|].
  apply (returned_refresh_token_accepted config pwd_context_verify world
           (snd logged_in) (Token.mk at1 rt1 "bearer") "alice" t_login Huniq).
  left. exists form, t_login. by split.
Defined.

(** X5 at the sample: alice's login leaves bob's row where it was. *)
Lemma rotation_leaves_other_identities_witness :
  unique_ids (users world)
  /\ forall other refresh_token,
       other <> "alice" ->
       select_users other refresh_token (snd logged_in)
       = select_users other refresh_token world.
Proof.
  assert (Hids : unique_ids (users world))
    by (apply (bool_decide_unpack _); vm_compute; done).
  assert (Hrun : login_user config pwd_context_verify form t_login t_login world
                 = (Ok (Token.mk at1 rt1 "bearer"), snd logged_in))
    by (vm_compute; done).
  split; [exact Hids|].
  apply (rotation_leaves_other_identities config pwd_context_verify world
           (snd logged_in) (Token.mk at1 rt1 "bearer") "alice" Hids).
  left. exists form, t_login, t_login. by split.
Defined.

(** X6 at the sample: two seconds after her login, alice's refresh token
    is the one her row stores. *)
Lemma new_token_outcomes_witness :
  unique_usernames (users (snd logged_in))
  /\ refresh_claims config rt1 t_later = Some "alice"
  /\ fst (new_token config rt1 t_later t_later t_later (snd logged_in))
     = Ok (Token.mk
             (create_access_token config [("sub", JStr "alice")] None t_later)
             (create_refresh_token config [("sub", JStr "alice")] None t_later)
             "bearer").
Proof.
  assert (Huniq : unique_usernames (users (snd logged_in)))
    by (apply (bool_decide_unpack _); vm_compute; done).
  assert (Hclaims : refresh_claims config rt1 t_later = Some "alice")
    by (vm_compute; done).
  pose proof (new_token_outcomes config rt1 t_later t_later t_later
                (snd logged_in) Huniq) as Hthm.
  cbv zeta in Hthm. rewrite Hclaims in Hthm. destruct Hthm as [Hstored _].
  split; [exact Huniq|]. split; [exact Hclaims|].
  apply (Hstored (User.set_refresh_token alice (Some rt1))).
  - left.
  - done.
  - done.
Defined.

(** X8 at the sample: alice's cache entry timed out a second before the
    request; she is read from the table and cached anew. *)
Lemma resolution_after_timeout_witness :
  unique_usernames (users timed_out)
  /\ redis timed_out !! "alice"
     = Some (UserBase.mk 1 "alice" "alice@example.com" (Some "old.png") USER,
             Some 999000000)
  /\ fst (get_current_user config at1 t_later t_login timed_out) = Ok alice
  /\ redis (snd (get_current_user config at1 t_later t_login timed_out)) !! "alice"
     = Some (UserBase.model_validate alice, Some (t_login + timedelta_seconds 60)).
Proof.
  assert (Huniq : unique_usernames (users timed_out))
    by (apply (bool_decide_unpack _); vm_compute; done).
  assert (Hentry : redis timed_out !! "alice"
                   = Some (UserBase.mk 1 "alice" "alice@example.com"
                             (Some "old.png") USER, Some 999000000))
    by (vm_compute; done).
  destruct (resolution_after_timeout config at1
              [("sub", JStr "alice"); ("exp", JInt 4600); ("iat", JInt 1000);
               ("token_type", JStr "access")]
              "alice" t_later t_login 999000000 _ timed_out Huniq
              ltac:(vm_compute; done) eq_refl eq_refl Hentry
              ltac:(vm_compute; done)) as [Hrow _].
  destruct (Hrow alice ltac:(left) eq_refl) as [Hok Hcache].
  split; [exact Huniq|]. split; [exact Hentry|]. split; [exact Hok|].
  apply Hcache. vm_compute. done.
Defined.

(** X9 at the sample: bob, unconfirmed, follows the link of his mail. *)
Lemma confirm_email_outcomes_witness :
  unique_emails (users world)
  /\ get_email_from_token config bob_email_token t_later
     = Ok (Some "bob@example.com")
  /\ confirm_email config bob_email_token t_later world
     = (Ok USER_CONFIRMED, confirmed_world bob world).
Proof.
  assert (Hmails : unique_emails (users world))
    by (apply (bool_decide_unpack _); vm_compute; done).
  assert (Hemail : get_email_from_token config bob_email_token t_later
                   = Ok (Some "bob@example.com")) by (vm_compute; done).
  pose proof (confirm_email_outcomes config bob_email_token t_later world Hmails)
    as Hthm.
  cbv zeta in Hthm. rewrite Hemail in Hthm. destruct Hthm as [_ [Hrow _]].
  split; [exact Hmails|]. split; [exact Hemail|].
  apply (Hrow bob); [by right; left|done].
Defined.

(** X10 at the sample: bob cannot log in before he has confirmed his
    address, and can afterwards. *)
Lemma confirmation_enables_login_witness :
  unique_usernames (users world) /\ unique_emails (users world)
  /\ confirm_email config bob_email_token t_later world
     = (Ok USER_CONFIRMED, confirmed_world bob world)
  /\ exists user,
       user ∈ users world
       /\ get_email_from_token config bob_email_token t_later
          = Ok (Some (User.email user))
       /\ (forall form_data now_a now_r,
              Form.username form_data = User.username user ->
              verify_password pwd_context_verify (Form.password form_data)
                (User.hashed_password user) = true ->
              fst (login_user config pwd_context_verify form_data now_a now_r world)
              = Err (HTTPException HTTP_401_UNAUTHORIZED USER_NOT_CONFIRMED)
              /\ fst (login_user config pwd_context_verify form_data now_a now_r
                        (confirmed_world bob world))
                 = Ok (Token.mk
                         (create_access_token config
                            [("sub", JStr (User.username user))] None now_a)
                         (create_refresh_token config
                            [("sub", JStr (User.username user))] None now_r)
                         "bearer"))
       /\ forall now',
            get_email_from_token config bob_email_token now'
            = Ok (Some (User.email user)) ->
            confirm_email config bob_email_token now' (confirmed_world bob world)
            = (Ok USER_ALREADY_CONFIRMED, confirmed_world bob world).
Proof.
  assert (Hnames : unique_usernames (users world))
    by (apply (bool_decide_unpack _); vm_compute; done).
  assert (Hmails : unique_emails (users world))
    by (apply (bool_decide_unpack _); vm_compute; done).
  assert (Hrun : confirm_email config bob_email_token t_later world
                 = (Ok USER_CONFIRMED, confirmed_world bob world))
    by (vm_compute; done).
  split; [exact Hnames|]. split; [exact Hmails|]. split; [exact Hrun|].
  exact (confirmation_enables_login config pwd_context_verify bob_email_token
           t_later world (confirmed_world bob world) Hnames Hmails Hrun).
Defined.

(** X11 at the sample: a confirmation mail is sent to bob, none to alice. *)
Lemma request_email_outcomes_witness :
  unique_emails (users world)
  /\ fst (request_email "bob@example.com" base_url world)
     = Ok (EMAIL_SENT, [send_email "bob@example.com" "bob" base_url])
  /\ fst (request_email "alice@example.com" base_url world)
     = Ok (USER_ALREADY_CONFIRMED, []).
Proof.
  assert (Hmails : unique_emails (users world))
    by (apply (bool_decide_unpack _); vm_compute; done).
  split; [exact Hmails|]. split.
  - apply (proj1 (proj2 (request_email_outcomes "bob@example.com" base_url world
                           Hmails)) bob); [by right; left|done].
  - apply (proj1 (proj2 (request_email_outcomes "alice@example.com" base_url world
                           Hmails)) alice); [by left|done].
Defined.

(** X12 at the sample: alice's address is taken; carol is registered and
    gets her mail. *)
Lemma register_outcomes_witness :
  unique_usernames (users world) /\ unique_emails (users world)
  /\ fst (register get_password_hash create_user alice_again base_url world)
     = Err (HTTPException HTTP_409_CONFLICT USER_EMAIL_OR_NAME_ALREADY_EXISTS)
  /\ fst (register get_password_hash create_user carol_body base_url world)
     = Ok (User.mk 3 "carol" "carol@example.com" (Some "bcrypt$looking-glass")
             None (Some 0) None (Some false) USER None None,
           [send_email "carol@example.com" "carol" base_url]).
Proof.
  assert (Hnames : unique_usernames (users world))
    by (apply (bool_decide_unpack _); vm_compute; done).
  assert (Hmails : unique_emails (users world))
    by (apply (bool_decide_unpack _); vm_compute; done).
  split; [exact Hnames|]. split; [exact Hmails|]. split.
  - apply (proj1 (register_outcomes get_password_hash create_user alice_again
                    base_url world Hnames Hmails)).
    exists alice. split; [by left|by left].
  - rewrite (proj2 (register_outcomes get_password_hash create_user carol_body
                      base_url world Hnames Hmails)); [done|].
    intros user Hin.
    apply elem_of_cons in Hin as [->|Hin]; [done|].
    by apply list_elem_of_singleton in Hin as ->.
Defined.

(** X14 at the sample: bob, an administrator, changes his avatar; a second
    later his token still resolves to an identity without one. *)
Lemma avatar_change_hidden_by_cache_witness :
  unique_usernames (users world) /\ unique_emails (users world)
  /\ 0 < REDIS_EXPIRATION_TIME config
  /\ redis_lookup (redis world) "bob" t_later = None
  /\ fst avatar_changed
     = Ok (User_set_avatar bob (Some "https://img.example.com/bob/face.png"))
  /\ exists identity,
       fst (get_current_user config bob_access_token t_later
              (t_later + timedelta_seconds 1) (snd avatar_changed))
       = Ok identity
       /\ User.avatar identity = None.
Proof.
  assert (Hnames : unique_usernames (users world))
    by (apply (bool_decide_unpack _); vm_compute; done).
  assert (Hmails : unique_emails (users world))
    by (apply (bool_decide_unpack _); vm_compute; done).
  assert (Httl : 0 < REDIS_EXPIRATION_TIME config) by (vm_compute; done).
  assert (Hmiss : redis_lookup (redis world) "bob" t_later = None)
    by (vm_compute; done).
  assert (Hdec : jwt_decode bob_access_token (JWT_SECRET config)
                   [JWT_ALGORITHM config] t_later
                 = Ok [("sub", JStr "bob"); ("exp", JInt 4600); ("iat", JInt 1000);
                       ("token_type", JStr "access")]) by (vm_compute; done).
  assert (Hrun : update_avatar config string upload_file bob_access_token
                   "face.png" t_later t_later world
                 = (Ok (User_set_avatar bob
                          (Some "https://img.example.com/bob/face.png")),
                    snd avatar_changed)) by (vm_compute; done).
  destruct (avatar_change_hidden_by_cache config string upload_file
              bob_access_token _ "bob" "face.png" t_later t_later world _ _
              Hnames Hmails Httl Hdec eq_refl Hmiss Hrun)
    as (user & Hin & Hname & _ & _ & _ & Hstale).
  assert (Huser : user = bob).
  { apply elem_of_cons in Hin as [->|Hin]; [done|].
    by apply list_elem_of_singleton in Hin. }
  subst user.
  split; [exact Hnames|]. split; [exact Hmails|]. split; [exact Httl|].
  split; [exact Hmiss|]. split; [exact (f_equal fst Hrun)|].
  apply (Hstale bob_access_token _ t_later (t_later + timedelta_seconds 1) Hdec
           eq_refl eq_refl).
  vm_compute. done.
Defined.

(** X15 at the sample: alice logs in again two seconds after her first
    login; the refresh token of the first login is refused. *)
Lemma earlier_refresh_tokens_refused_witness :
  let again := login_user config pwd_context_verify form t_later t_later
                 (snd logged_in) in
  unique_usernames (users (snd logged_in))
  /\ is_ok (fst again) = true
  /\ timegm t_login <> timegm t_later
  /\ fst (new_token config rt1 t_later t_later t_later (snd again))
     = Err (HTTPException HTTP_401_UNAUTHORIZED INVALID_REFRESH_TOKEN).
Proof.
  pose (again := login_user config pwd_context_verify form t_later t_later
                   (snd logged_in)).
  assert (Huniq : unique_usernames (users (snd logged_in)))
    by (apply (bool_decide_unpack _); vm_compute; done).
  assert (Hrun : again = (Ok (Token.mk (access_of (fst again))
                                 (refresh_of (fst again)) "bearer"),
                          snd again)) by (vm_compute; done).
  assert (Hsecond : timegm t_login <> timegm t_later) by (vm_compute; done).
  cbv zeta. fold again.
  split; [exact Huniq|]. split; [by vm_compute|]. split; [exact Hsecond|].
  apply (proj2 (earlier_refresh_tokens_refused config pwd_context_verify
                  (snd logged_in) (snd again) _ "alice" t_later Huniq
                  (or_introl (ex_intro _ form (ex_intro _ t_later
                                                 (conj eq_refl Hrun)))))
           t_login t_later t_later t_later Hsecond).
  vm_compute. done.
Defined.

(** X16 at the sample: bob follows the link of his mail two seconds after
    it was issued, or eight days after. *)
Lemma mailed_token_confirms_witness :
  unique_emails (users world) /\ bob ∈ users world
  /\ truthy_bool (User.confirmed bob) = false
  /\ confirm_email config bob_email_token t_later world
     = (Ok USER_CONFIRMED, confirmed_world bob world)
  /\ confirm_email config bob_email_token t_next_week world
     = (Err (Known (HTTPException HTTP_422_UNPROCESSABLE_ENTITY UNEXISTING_TOKEN)),
        world).
Proof.
  assert (Hmails : unique_emails (users world))
    by (apply (bool_decide_unpack _); vm_compute; done).
  assert (Hin : bob ∈ users world) by (right; left).
  assert (Hunconfirmed : truthy_bool (User.confirmed bob) = false) by done.
  split; [exact Hmails|]. split; [exact Hin|]. split; [exact Hunconfirmed|]. split.
  - exact (mailed_token_confirms config bob t_login t_login t_later world
             Hmails Hin Hunconfirmed).
  - exact (mailed_token_confirms config bob t_login t_login t_next_week world
             Hmails Hin Hunconfirmed).
Defined.

(** X17 at the sample: id 2 is bob's, id 9 is nobody's. *)
Lemma get_user_by_id_spec_witness :
  unique_ids (users world)
  /\ fst (UserRepository_get_user_by_id 2 world) = Ok (Some bob)
  /\ fst (UserRepository_get_user_by_id 9 world) = Ok None.
Proof.
  assert (Hids : unique_ids (users world))
    by (apply (bool_decide_unpack _); vm_compute; done).
  split; [exact Hids|]. split.
  - apply (proj1 (proj2 (proj2 (get_user_by_id_spec 2 world Hids))) bob);
      [by right; left|done].
  - apply (proj2 (proj2 (proj2 (get_user_by_id_spec 9 world Hids)))).
    intros user Hin.
    apply elem_of_cons in Hin as [->|Hin]; [done|].
    by apply list_elem_of_singleton in Hin as ->.
Defined.

End FurtherExamples.
